(** * Request context of the builder application

    A shallow embedding of two server modules of the builder app:

    - [~/shared/context.server]: [extractAuthFromRequest],
      [createAuthorizationContext], [createUserPlanContext],
      [createTrpcCache], [createContext];
    - the dashboard route: its [loader].

    The code is sequential [async] orchestration of services that live in
    other packages (session store, ORM, bloom filter, router utilities).
    Those services are taken as fields of a record ([ContextServices],
    [LoaderServices]); every call to one that leaves the process is written
    to a log carried by the monad [M], next to the exception the code may
    throw. *)

From Stdlib Require Import Ascii.
From stdpp Require Import gmap strings list.

Open Scope Z_scope.
Open Scope string_scope.
Open Scope list_scope.

(** ** Platform values *)

(** [a ?? b] on values whose absence ([null] or [undefined]) is [None]. *)
Definition nullish {A : Type} (a b : option A) : option A :=
  match a with
  | Some x => Some x
  | None => b
  end.

(** [a === b] where [a] is [string | null] and [b] is [string | undefined]:
    two strings are compared; [null === undefined] is false. *)
Definition strict_eq_null_undefined (a b : option string) : bool :=
  match a, b with
  | Some x, Some y => bool_decide (x = y)
  | _, _ => false
  end.

(** JavaScript truthiness of a [string | undefined]: the empty string and
    [undefined] are both falsy. *)
Definition truthy (a : option string) : bool :=
  match a with
  | Some s => negb (bool_decide (s = ""))
  | None => false
  end.

(** *** [URL] and [URLSearchParams] *)

(** [get] returns the value of the first pair with the given name. *)
Fixpoint URLSearchParams_get (params : list (string * string)) (name : string)
  : option string :=
  match params with
  | [] => None
  | (k, v) :: rest =>
      if bool_decide (k = name) then Some v else URLSearchParams_get rest name
  end.

(** The result of [new URL(request.url)]; [href] is the string it was
    parsed from. *)
Record URL := {
  href : string;
  origin : string;
  pathname : string;
  searchParams : list (string * string);
}.

(** *** [Headers] *)

Definition lower_ascii (c : ascii) : ascii :=
  let n := nat_of_ascii c in
  if (65 <=? n)%nat && (n <=? 90)%nat then ascii_of_nat (n + 32) else c.

Fixpoint lower (s : string) : string :=
  match s with
  | EmptyString => EmptyString
  | String c rest => String (lower_ascii c) (lower rest)
  end.
Arguments lower : simpl never.

(** A [Headers] object: header names are case-insensitive, the map is keyed
    by the lower-cased name. *)
Definition Headers_set (name value : string) (h : gmap string string)
  : gmap string string :=
  <[lower name := value]> h.

Definition Headers_get (h : gmap string string) (name : string) : option string :=
  h !! lower name.

Definition Headers_has (h : gmap string string) (name : string) : bool :=
  bool_decide (is_Some (h !! lower name)).

Record Request := {
  url : URL;
  headers : gmap string string;
}.

Record Response := {
  body : option string;
  status : Z;
  statusText : string;
  responseHeaders : gmap string string;
}.

(** What a [throw] carries: [new Error(message)] or a [Response]. *)
Inductive Thrown :=
  | ThrownError (message : string)
  | ThrownResponse (response : Response).

(** ** Entities and collaborators outside these modules *)

Module SessionData.
Record t := { userId : string; createdAt : Z }.
End SessionData.

(** The row selected by [prisma.authorizationToken.findUnique]:
    [{ project: { id, userId } }]. *)
Module TokenProject.
Record t := { id : string; userId : option string }.
End TokenProject.

(** What [parseBuilderUrl] returns. *)
Module ParsedBuilderUrl.
Record t := { projectId : option string; sourceOrigin : string }.
End ParsedBuilderUrl.

Record Env := {
  TRPC_SERVER_API_TOKEN : option string;
  PROJECT_TEMPLATES : list string;
  PUBLISHER_HOST : string;
  IMAGE_BASE_URL : string;
  POSTGREST_URL : string;
  POSTGREST_API_KEY : string;
}.

Record StaticEnv := {
  GITHUB_REF_NAME : option string;
  GITHUB_SHA : option string;
}.

(** Types owned by other packages. *)
Record Entities := {
  User : Type;
  User_id : User -> string;
  Project : Type;
  UserPlanFeatures : Type;
  BloomFilter : Type;
  BloomFilter_has : BloomFilter -> string -> bool;
  DomainTrpc : Type;
  DeploymentTrpc : Type;
  EntryApi : Type;
  PostgrestClient : Type;
}.

(** ** The monad of the request handlers *)

Inductive Authenticator := GenericAuthenticator | BuilderAuthenticator.

(** Calls that reach a service outside the process. *)
Inductive Call :=
  | CallFindAuthenticatedUser (request : Request)
  | CallIsAuthenticated (which : Authenticator) (request : Request)
  | CallAuthorizationTokenFindUnique (token : string)
  | CallReadLoginSessionBloomFilter (request : Request)
  | CallGetUserPlanFeatures (userId : string)
  | CallFindMany (userId : string)
  | CallFindManyByIds (projectIds : list string).

Inductive Outcome (A : Type) :=
  | Returned (a : A)
  | Threw (e : Thrown).
Arguments Returned {A} a.
Arguments Threw {A} e.

Section Monad.
Context {E : Entities}.

(** [calls] is the log, latest call last; [cells] holds the [let]
    variables that closures capture and assign. *)
Record State := {
  calls : list Call;
  cells : list (option (BloomFilter E));
}.

Definition M (A : Type) : Type := State -> Outcome A * State.

Definition ret {A} (a : A) : M A := fun s => (Returned a, s).

Definition bind {A B} (m : M A) (k : A -> M B) : M B :=
  fun s =>
    match m s with
    | (Returned a, s') => k a s'
    | (Threw e, s') => (Threw e, s')
    end.

Definition throw {A} (e : Thrown) : M A := fun s => (Threw e, s).

(** An awaited call to an outside service: log it, return its answer. *)
Definition call {A} (c : Call) (answer : A) : M A :=
  fun s => (Returned answer, {| calls := calls s ++ [c]; cells := cells s |}).

(** [let x = v] for a variable captured by a closure. *)
Definition alloc (v : option (BloomFilter E)) : M nat :=
  fun s =>
    (Returned (length (cells s)),
     {| calls := calls s; cells := cells s ++ [v] |}).

Definition read (r : nat) : M (option (BloomFilter E)) :=
  fun s => (Returned (mjoin (cells s !! r)), s).

Definition write (r : nat) (v : option (BloomFilter E)) : M unit :=
  fun s => (Returned tt, {| calls := calls s; cells := <[r := v]> (cells s) |}).

Definition initial : State := {| calls := []; cells := [] |}.
End Monad.
Arguments State E : clear implicits.
Arguments M E A : clear implicits.

Notation "x <- c ;; k" := (bind c (fun x => k))
  (at level 100, c at next level, right associativity).

(** ** [~/shared/context.server] *)

Record ExtractedAuth := {
  extracted_authToken : option string;
  extracted_sessionData : option SessionData.t;
  extracted_isServiceCall : bool;
}.

(** [AppContext["authorization"]]. *)
Record Authorization (E : Entities) := {
  userId : option string;
  sessionCreatedAt : option Z;
  authToken : option string;
  isServiceCall : bool;
  ownerId : option string;
  isLoggedInToBuilder : option (string -> M E bool);
}.
Arguments userId {E} _.
Arguments sessionCreatedAt {E} _.
Arguments authToken {E} _.
Arguments isServiceCall {E} _.
Arguments ownerId {E} _.
Arguments isLoggedInToBuilder {E} _.

Record DeploymentEnv := {
  BUILDER_ORIGIN : string;
  deployment_GITHUB_REF_NAME : string;
  deployment_GITHUB_SHA : option string;
}.

Record Deployment (E : Entities) := {
  deploymentTrpc : DeploymentTrpc E;
  deployment_env : DeploymentEnv;
}.
Arguments deploymentTrpc {E} _.
Arguments deployment_env {E} _.

Record AppContext (E : Entities) := {
  authorization : Authorization E;
  domain : DomainTrpc E;
  deployment : Deployment E;
  entri : EntryApi E;
  userPlanFeatures : option (UserPlanFeatures E);
  trpcCache : gmap string Z;
  postgrest : PostgrestClient E;
}.
Arguments authorization {E} _.
Arguments domain {E} _.
Arguments deployment {E} _.
Arguments entri {E} _.
Arguments userPlanFeatures {E} _.
Arguments trpcCache {E} _.
Arguments postgrest {E} _.

(** What the module imports: router utilities, the two authenticators, the
    ORM lookup, the bloom filter reader, the plan lookup, configuration and
    client handles. *)
Record ContextServices (E : Entities) := {
  isCanvas : Request -> bool;
  isBuilder : Request -> bool;
  isDashboard : Request -> bool;
  authenticator_isAuthenticated : Request -> option SessionData.t;
  builderAuthenticator_isAuthenticated : Request -> option SessionData.t;
  prisma_authorizationToken_findUnique : string -> option TokenProject.t;
  readLoginSessionBloomFilter : Request -> BloomFilter E;
  parseBuilderUrl : string -> ParsedBuilderUrl.t;
  getUserPlanFeatures : string -> UserPlanFeatures E;
  env : Env;
  staticEnv : StaticEnv;
  trpcSharedClient_domain : DomainTrpc E;
  trpcSharedClient_deployment : DeploymentTrpc E;
  entryApi : EntryApi E;
  createClient : string -> string -> PostgrestClient E;
}.
Arguments isCanvas {E} _ _.
Arguments isBuilder {E} _ _.
Arguments isDashboard {E} _ _.
Arguments authenticator_isAuthenticated {E} _ _.
Arguments builderAuthenticator_isAuthenticated {E} _ _.
Arguments prisma_authorizationToken_findUnique {E} _ _.
Arguments readLoginSessionBloomFilter {E} _ _.
Arguments parseBuilderUrl {E} _ _.
Arguments getUserPlanFeatures {E} _ _.
Arguments env {E} _.
Arguments staticEnv {E} _.
Arguments trpcSharedClient_domain {E} _.
Arguments trpcSharedClient_deployment {E} _.
Arguments entryApi {E} _.
Arguments createClient {E} _ _ _.

Definition Number_MAX_SAFE_INTEGER : Z := 9007199254740991.

(** *** [createTrpcCache]

    The private [Map] is the state of a cache instance; [setMaxAge] updates
    it and [getMaxAge] reads it. Ages are whole seconds. *)
Definition createTrpcCache : gmap string Z := ∅.

Definition setMaxAge (path : string) (value : Z) (proceduresMaxAge : gmap string Z)
  : gmap string Z :=
  <[path := Z.min (default Number_MAX_SAFE_INTEGER (proceduresMaxAge !! path)) value]>
    proceduresMaxAge.

Definition getMaxAge (path : string) (proceduresMaxAge : gmap string Z) : option Z :=
  proceduresMaxAge !! path.

Section ContextServer.
Context {E : Entities} (S : ContextServices E).

Definition canvasError : Thrown :=
  ThrownError "Canvas requests can't have authorization context".

Definition extractAuthFromRequest (request : Request) : M E ExtractedAuth :=
if isCanvas S request then throw canvasError
else
  let url := url request in
  let authToken :=
    nullish (URLSearchParams_get (searchParams url) "authToken")
      (nullish (Headers_get (headers request) "x-auth-token") None) in
  sessionData <-
    (if isBuilder S request
     then call (CallIsAuthenticated BuilderAuthenticator request)
               (builderAuthenticator_isAuthenticated S request)
     else call (CallIsAuthenticated GenericAuthenticator request)
               (authenticator_isAuthenticated S request)) ;;
  let isServiceCall :=
    Headers_has (headers request) "Authorization"
    && strict_eq_null_undefined
         (Headers_get (headers request) "Authorization")
         (TRPC_SERVER_API_TOKEN (env S)) in
  ret {| extracted_authToken := authToken;
         extracted_sessionData := sessionData;
         extracted_isServiceCall := isServiceCall |}.

(** The closure assigned to [isLoggedInToBuilder] for the dashboard: the
    filter is read on first use and kept in the captured [let] variable. *)
Definition dashboardIsLoggedInToBuilder (request : Request) (loginBloomFilter : nat)
  (projectId : string) : M E bool :=
  current <- read loginBloomFilter ;;
  filter <-
    match current with
    | None =>
        fresh <- call (CallReadLoginSessionBloomFilter request)
                      (readLoginSessionBloomFilter S request) ;;
        _ <- write loginBloomFilter (Some fresh) ;;
        ret fresh
    | Some filter => ret filter
    end ;;
  ret (BloomFilter_has E filter projectId).

(** The closure assigned to [isLoggedInToBuilder] for the builder. *)
Definition builderIsLoggedInToBuilder (request : Request) (projectId : string)
  : M E bool :=
  let parsedUrl := parseBuilderUrl S (href (url request)) in
  ret (bool_decide (ParsedBuilderUrl.projectId parsedUrl = Some projectId)).

Definition createAuthorizationContext (request : Request) : M E (Authorization E) :=
if isCanvas S request then throw canvasError
else
  extracted <- extractAuthFromRequest request ;;
  let authToken := extracted_authToken extracted in
  let isServiceCall := extracted_isServiceCall extracted in
  let sessionData := extracted_sessionData extracted in
  let ownerId := SessionData.userId <$> sessionData in
  ownerId <-
    match authToken with
    | Some token =>
        projectOwnerIdByToken <-
          call (CallAuthorizationTokenFindUnique token)
               (prisma_authorizationToken_findUnique S token) ;;
        match projectOwnerIdByToken with
        | None =>
            throw (ThrownError ("Project owner can't be found for token " +:+ token))
        | Some project =>
            match TokenProject.userId project with
            | None =>
                throw (ThrownError
                         ("Project " +:+ TokenProject.id project +:+ " has null userId"))
            | Some projectOwnerId => ret (Some projectOwnerId)
            end
        end
    | None => ret ownerId
    end ;;
  loginBloomFilter <- alloc None ;;
  let isLoggedInToBuilder := None in
  let isLoggedInToBuilder :=
    if isDashboard S request
       && bool_decide (is_Some (SessionData.userId <$> sessionData))
    then Some (dashboardIsLoggedInToBuilder request loginBloomFilter)
    else isLoggedInToBuilder in
  let isLoggedInToBuilder :=
    if isBuilder S request
       && bool_decide (is_Some (SessionData.userId <$> sessionData))
    then Some (builderIsLoggedInToBuilder request)
    else isLoggedInToBuilder in
  ret {| userId := SessionData.userId <$> sessionData;
         sessionCreatedAt := SessionData.createdAt <$> sessionData;
         authToken := authToken;
         isServiceCall := isServiceCall;
         ownerId := ownerId;
         isLoggedInToBuilder := isLoggedInToBuilder |}.

Definition createDomainContext (_request : Request) : DomainTrpc E :=
  trpcSharedClient_domain S.

Definition getRequestOrigin (url : URL) : string := origin url.

Definition createDeploymentContext (request : Request) : Deployment E :=
  {| deploymentTrpc := trpcSharedClient_deployment S;
     deployment_env :=
       {| BUILDER_ORIGIN := getRequestOrigin (url request);
          deployment_GITHUB_REF_NAME :=
            default "undefined" (GITHUB_REF_NAME (staticEnv S));
          deployment_GITHUB_SHA := GITHUB_SHA (staticEnv S) |} |}.

Definition createEntriContext : EntryApi E := entryApi S.

(** [authorization.ownerId ? await getUserPlanFeatures(...) : undefined] *)
Definition createUserPlanContext (authorization : Authorization E)
  : M E (option (UserPlanFeatures E)) :=
  if truthy (ownerId authorization)
  then
    match ownerId authorization with
    | Some owner =>
        planFeatures <- call (CallGetUserPlanFeatures owner)
                             (getUserPlanFeatures S owner) ;;
        ret (Some planFeatures)
    | None => ret None
    end
  else ret None.

Definition createPostrestContext : PostgrestClient E :=
  createClient S (POSTGREST_URL (env S)) (POSTGREST_API_KEY (env S)).

Definition createContext (request : Request) : M E (AppContext E) :=
  authorization <- createAuthorizationContext request ;;
  let domain := createDomainContext request in
  let deployment := createDeploymentContext request in
  let entri := createEntriContext in
  userPlanFeatures <- createUserPlanContext authorization ;;
  let trpcCache := createTrpcCache in
  let postgrest := createPostrestContext in
  ret {| authorization := authorization;
         domain := domain;
         deployment := deployment;
         entri := entri;
         userPlanFeatures := userPlanFeatures;
         trpcCache := trpcCache;
         postgrest := postgrest |}.
End ContextServer.

(** ** The dashboard route *)

Record LoginPathParams := { returnTo : string }.

(** The payload handed to [json]. *)
Record LoaderData (E : Entities) := {
  data_user : User E;
  data_projects : list (Project E);
  data_projectTemplates : list (Project E);
  data_userPlanFeatures : UserPlanFeatures E;
  data_publisherHost : string;
  data_imageBaseUrl : string;
  data_origin : string;
}.
Arguments data_user {E} _.
Arguments data_projects {E} _.
Arguments data_projectTemplates {E} _.
Arguments data_userPlanFeatures {E} _.
Arguments data_publisherHost {E} _.
Arguments data_imageBaseUrl {E} _.
Arguments data_origin {E} _.

(** What the route imports besides the context module. The two request
    checks answer [None] when the request passes and [Some e] when they
    throw [e]. *)
Record LoaderServices (E : Entities) := {
  preventCrossOriginCookie : Request -> option Thrown;
  allowedDestinations : Request -> list string -> option Thrown;
  findAuthenticatedUser : Request -> option (User E);
  loginPath : LoginPathParams -> string;
  redirect : string -> Response;
  dashboardProjectCaller_findMany : AppContext E -> string -> list (Project E);
  dashboardProjectCaller_findManyByIds :
    AppContext E -> list string -> list (Project E);
}.
Arguments preventCrossOriginCookie {E} _ _.
Arguments allowedDestinations {E} _ _ _.
Arguments findAuthenticatedUser {E} _ _.
Arguments loginPath {E} _ _.
Arguments redirect {E} _ _.
Arguments dashboardProjectCaller_findMany {E} _ _ _.
Arguments dashboardProjectCaller_findManyByIds {E} _ _ _.

Section DashboardRoute.
Context {E : Entities} (S : ContextServices E) (L : LoaderServices E).

(** A check that either passes or throws. *)
Definition guard (check : option Thrown) : M E unit :=
  match check with
  | None => ret tt
  | Some e => throw e
  end.

Definition notFound : Response :=
  {| body := None; status := 404; statusText := "Not Found";
     responseHeaders := ∅ |}.

Definition loader (request : Request) : M E (LoaderData E) :=
if negb (isDashboard S request) then throw (ThrownResponse notFound)
else
  _ <- guard (preventCrossOriginCookie L request) ;;
  _ <- guard (allowedDestinations L request ["document"; "empty"]) ;;
  user <- call (CallFindAuthenticatedUser request)
               (findAuthenticatedUser L request) ;;
  match user with
  | None =>
      let url := url request in
      throw (ThrownResponse
               (redirect L (loginPath L {| returnTo := pathname url |})))
  | Some user =>
      context <- createContext S request ;;
      projects <-
        call (CallFindMany (User_id E user))
             (dashboardProjectCaller_findMany L context (User_id E user)) ;;
      projectTemplates <-
        call (CallFindManyByIds (PROJECT_TEMPLATES (env S)))
             (dashboardProjectCaller_findManyByIds L context
                (PROJECT_TEMPLATES (env S))) ;;
      match userPlanFeatures context with
      | None => throw (ThrownError "User plan features are not defined")
      | Some userPlanFeatures =>
          let sourceOrigin :=
            ParsedBuilderUrl.sourceOrigin (parseBuilderUrl S (href (url request))) in
          ret {| data_user := user;
                 data_projects := projects;
                 data_projectTemplates := projectTemplates;
                 data_userPlanFeatures := userPlanFeatures;
                 data_publisherHost := PUBLISHER_HOST (env S);
                 data_imageBaseUrl := IMAGE_BASE_URL (env S);
                 data_origin := sourceOrigin |}
      end
  end.
End DashboardRoute.

(** *** The route's [meta], [headers] and component *)

Record MetaDescriptor := { title : string }.

Module Route.
Definition meta : list MetaDescriptor := [{| title := "Webstudio Dashboard" |}].

Definition headers : gmap string string :=
  Headers_set "Cache-Control" "no-store" ∅.
End Route.

(** The argument of [builderUrl]. *)
Module BuilderUrlParams.
Record t := { projectId : string; origin : string }.
End BuilderUrlParams.

(** The resource hints of [react-dom] that the component issues while it
    renders. *)
Inductive ResourceHint :=
  | PrefetchDNS (href : string)
  | Preconnect (href : string).

(** What the component reads of a project, and the router utility it
    calls. *)
Record ClientServices (E : Entities) := {
  Project_id : Project E -> string;
  builderUrl : BuilderUrlParams.t -> string;
}.
Arguments Project_id {E} _ _.
Arguments builderUrl {E} _ _.

Section DashboardComponent.
Context {E : Entities} (C : ClientServices E).

(** The hints [DashboardRoute] issues for the loader's data, in the order of
    the calls: the two [slice(0, 5).map] lines, one after the other. *)
Definition DashboardRoute (data : LoaderData E) : list ResourceHint :=
  map (fun project =>
         PrefetchDNS
           (builderUrl C {| BuilderUrlParams.projectId := Project_id C project;
                            BuilderUrlParams.origin := data_origin data |}))
      (take 5 (data_projects data))
  ++ map (fun project =>
            Preconnect
              (builderUrl C {| BuilderUrlParams.projectId := Project_id C project;
                               BuilderUrlParams.origin := data_origin data |}))
         (take 5 (data_projects data)).
End DashboardComponent.

(** ** Vocabulary of the statements *)

Section Vocabulary.
Context {E : Entities} (S : ContextServices E).

(** The token a request carries: query parameter first, then header. *)
Definition carriedToken (request : Request) : option string :=
  nullish (URLSearchParams_get (searchParams (url request)) "authToken")
    (Headers_get (headers request) "x-auth-token").

(** The session the surface's authenticator finds. *)
Definition sessionOf (request : Request) : option SessionData.t :=
  if isBuilder S request
  then builderAuthenticator_isAuthenticated S request
  else authenticator_isAuthenticated S request.

Definition sessionCall (request : Request) : Call :=
  CallIsAuthenticated
    (if isBuilder S request then BuilderAuthenticator else GenericAuthenticator)
    request.

(** The state after some more calls were logged. *)
Definition logged (s : State E) (more : list Call) : State E :=
  {| calls := calls s ++ more; cells := cells s |}.

(** Whether the carried token, if any, leads to an owned project. *)
Definition tokenResolves (request : Request) : bool :=
  match carriedToken request with
  | None => true
  | Some token =>
      match prisma_authorizationToken_findUnique S token with
      | Some project => bool_decide (is_Some (TokenProject.userId project))
      | None => false
      end
  end.

(** The owner the code settles on when it returns. *)
Definition resolvedOwner (request : Request) : option string :=
  match carriedToken request with
  | None => SessionData.userId <$> sessionOf request
  | Some token =>
      prisma_authorizationToken_findUnique S token ≫= TokenProject.userId
  end.

(** The calls of [createAuthorizationContext] once it is past the canvas
    check. *)
Definition authorizationCalls (request : Request) : list Call :=
  sessionCall request ::
  match carriedToken request with
  | None => []
  | Some token => [CallAuthorizationTokenFindUnique token]
  end.

(** The value assigned to [isLoggedInToBuilder]; [cell] is the variable the
    dashboard closure captures. *)
Definition capabilityOf (request : Request) (cell : nat)
  : option (string -> M E bool) :=
  if isBuilder S request && bool_decide (is_Some (sessionOf request))
  then Some (builderIsLoggedInToBuilder S request)
  else if isDashboard S request && bool_decide (is_Some (sessionOf request))
  then Some (dashboardIsLoggedInToBuilder S request cell)
  else None.

(** The calls of [createUserPlanContext] for a given owner. *)
Definition planCalls (owner : option string) : list Call :=
  match owner with
  | Some user => if bool_decide (user = "") then [] else [CallGetUserPlanFeatures user]
  | None => []
  end.

(** The plan features the code attaches for a given owner. *)
Definition planOf (owner : option string) : option (UserPlanFeatures E) :=
  match owner with
  | Some user =>
      if bool_decide (user = "") then None else Some (getUserPlanFeatures S user)
  | None => None
  end.

(** C7 as the specification words it: the plan features are the lookup of
    the owner whenever there is an owner, and undefined otherwise. *)
Definition planFeaturesFollowOwner : Prop :=
  forall (request : Request) (s s' : State E) (ctx : AppContext E),
    createContext S request s = (Returned ctx, s') ->
    userPlanFeatures ctx = getUserPlanFeatures S <$> ownerId (authorization ctx).

(** A caller that asks a capability about several projects in turn. *)
Fixpoint askAll (capability : string -> M E bool) (projectIds : list string)
  : M E (list bool) :=
  match projectIds with
  | [] => ret []
  | projectId :: rest =>
      answer <- capability projectId ;;
      answers <- askAll capability rest ;;
      ret (answer :: answers)
  end.

(** The calls of [createContext] once it is past the canvas check. *)
Definition contextCalls (request : Request) : list Call :=
  authorizationCalls request ++ planCalls (resolvedOwner request).

End Vocabulary.

Definition isPrefetchDNS (hint : ResourceHint) : bool :=
  match hint with
  | PrefetchDNS _ => true
  | Preconnect _ => false
  end.

Definition hintHref (hint : ResourceHint) : string :=
  match hint with
  | PrefetchDNS href => href
  | Preconnect href => href
  end.

(** A sequence of [setMaxAge] calls on one cache instance, first call
    first. *)
Definition setMaxAges (sets : list (string * Z)) (proceduresMaxAge : gmap string Z)
  : gmap string Z :=
  foldl (fun cache set => setMaxAge set.1 set.2 cache) proceduresMaxAge sets.

(** The values that the calls gave for one path. *)
Definition recorded (path : string) (sets : list (string * Z)) : list Z :=
  (filter (fun set => set.1 = path) sets).*2.

(** The least element of a list, if it has one. *)
Fixpoint minimum (values : list Z) : option Z :=
  match values with
  | [] => None
  | value :: rest =>
      Some (match minimum rest with
            | Some least => Z.min value least
            | None => value
            end)
  end.

(** C6 as the specification words it: the age read back is the least of the
    values given for the path. *)
Definition keepsMinimumOfValues : Prop :=
  forall (path : string) (sets : list (string * Z)),
    getMaxAge path (setMaxAges sets createTrpcCache)
    = minimum (recorded path sets).

(** ** A concrete deployment

    A small instance of the collaborators, on which the functions above
    compute: surfaces are told apart by path, the session is read from the
    [cookie] header, and the token table has one owned project, one project
    without owner and nothing else. *)

Definition demoEntities : Entities :=
  {| User := string;
     User_id := fun u => u;
     Project := string;
     UserPlanFeatures := string;
     BloomFilter := list string;
     BloomFilter_has := fun filter projectId => bool_decide (projectId ∈ filter);
     DomainTrpc := unit;
     DeploymentTrpc := unit;
     EntryApi := unit;
     PostgrestClient := string * string |}.

Definition demoSession (request : Request) : option SessionData.t :=
  (fun user => {| SessionData.userId := user; SessionData.createdAt := 1700000000 |})
    <$> Headers_get (headers request) "Cookie".

Definition demoTokens (token : string) : option TokenProject.t :=
  if bool_decide (token = "tok-alice")
  then Some {| TokenProject.id := "p1"; TokenProject.userId := Some "alice" |}
  else if bool_decide (token = "tok-orphan")
  then Some {| TokenProject.id := "p2"; TokenProject.userId := None |}
  else None.

Definition demoEnv : Env :=
  {| TRPC_SERVER_API_TOKEN := Some "s3cret";
     PROJECT_TEMPLATES := ["t1"; "t2"];
     PUBLISHER_HOST := "pub.example";
     IMAGE_BASE_URL := "/img/";
     POSTGREST_URL := "http://postgrest";
     POSTGREST_API_KEY := "key" |}.

Definition demoServices : ContextServices demoEntities :=
  @Build_ContextServices demoEntities
    (* isCanvas *) (fun r => bool_decide (pathname (url r) = "/canvas"))
    (* isBuilder *) (fun r => bool_decide (pathname (url r) = "/builder"))
    (* isDashboard *) (fun r => bool_decide (pathname (url r) = "/dashboard"))
    (* authenticator *) demoSession
    (* builderAuthenticator *) demoSession
    (* prisma.authorizationToken.findUnique *) demoTokens
    (* readLoginSessionBloomFilter *) (fun _ => ["p1"])
    (* parseBuilderUrl *)
    (fun href =>
       {| ParsedBuilderUrl.projectId := Some "p1";
          ParsedBuilderUrl.sourceOrigin := "https://apps.example" |})
    (* getUserPlanFeatures *) (fun user => "plan of " +:+ user)
    demoEnv
    {| GITHUB_REF_NAME := None; GITHUB_SHA := None |}
    tt tt tt
    (* createClient *) (fun u k => (u, k)).

Definition demoLoaderServices : LoaderServices demoEntities :=
  @Build_LoaderServices demoEntities
    (* preventCrossOriginCookie *) (fun _ => None)
    (* allowedDestinations *) (fun _ _ => None)
    (* findAuthenticatedUser *) (fun r => Headers_get (headers r) "Cookie")
    (* loginPath *) (fun params => "/login?returnTo=" +:+ returnTo params)
    (* redirect *)
    (fun path =>
       {| body := None; status := 302; statusText := "";
          responseHeaders := Headers_set "Location" path ∅ |})
    (* dashboardProjectCaller.findMany *) (fun _ user => ["p1"])
    (* dashboardProjectCaller.findManyByIds *) (fun _ ids => ids).

(** A request on [path] with the given query parameters and headers. *)
Definition demoRequest (path : string) (query header : list (string * string))
  : Request :=
  {| url := {| href := "https://apps.example" +:+ path;
               origin := "https://apps.example";
               pathname := path;
               searchParams := query |};
     headers := foldr (fun kv h => Headers_set kv.1 kv.2 h) ∅ header |}.

(** Bob's dashboard session, with the token of Alice's project. *)
Definition delegatedRequest : Request :=
  demoRequest "/dashboard" [("authToken", "tok-alice")] [("Cookie", "bob")].

(** The token of the project that has no owner, in the header. *)
Definition orphanTokenRequest : Request :=
  demoRequest "/dashboard" [] [("x-auth-token", "tok-orphan")].

Definition serviceRequest : Request :=
  demoRequest "/dashboard" [] [("Authorization", "s3cret")].

Definition builderRequest : Request :=
  demoRequest "/builder" [] [("Cookie", "bob")].

(** No session, but a token that resolves. *)
Definition anonymousTokenRequest : Request :=
  demoRequest "/dashboard" [("authToken", "tok-alice")] [].

Definition canvasRequest : Request :=
  demoRequest "/canvas" [] [("Cookie", "bob")].

Definition anonymousDashboardRequest : Request :=
  demoRequest "/dashboard" [] [].

(** An empty [authToken] parameter next to a token in the header. *)
Definition emptyTokenRequest : Request :=
  demoRequest "/dashboard" [("authToken", "")] [("x-auth-token", "tok-alice")].

(** A session whose user id is the empty string. *)
Definition emptyUserRequest : Request :=
  demoRequest "/dashboard" [] [("Cookie", "")].

Definition demoClientServices : ClientServices demoEntities :=
  @Build_ClientServices demoEntities
    (* project.id *) (fun project => project)
    (* builderUrl *)
    (fun params =>
       BuilderUrlParams.origin params +:+ "/builder/"
       +:+ BuilderUrlParams.projectId params).

(** A dashboard session without token. *)
Definition sessionRequest : Request :=
  demoRequest "/dashboard" [] [("Cookie", "bob")].

(** A dashboard session that carries the token without owner. *)
Definition sessionOrphanRequest : Request :=
  demoRequest "/dashboard" [("authToken", "tok-orphan")] [("Cookie", "bob")].

(** A token in the query and another one in the header. *)
Definition twoTokensRequest : Request :=
  demoRequest "/dashboard" [("authToken", "tok-alice")]
    [("x-auth-token", "tok-orphan")].

(** Loader services whose origin check refuses every request. *)
Definition refusingLoaderServices : LoaderServices demoEntities :=
  @Build_LoaderServices demoEntities
    (fun _ => Some (ThrownError "Cross-origin request to the dashboard"))
    (allowedDestinations demoLoaderServices)
    (findAuthenticatedUser demoLoaderServices)
    (loginPath demoLoaderServices)
    (redirect demoLoaderServices)
    (dashboardProjectCaller_findMany demoLoaderServices)
    (dashboardProjectCaller_findManyByIds demoLoaderServices).

(** Loader data with seven projects. *)
Definition demoData : LoaderData demoEntities :=
  @Build_LoaderData demoEntities
    "bob" ["p1"; "p2"; "p3"; "p4"; "p5"; "p6"; "p7"] ["t1"; "t2"]
    "plan of bob" "pub.example" "/img/" "https://apps.example".

(** ** Facts about the context module *)

Section ContextFacts.
Context {E : Entities} (S : ContextServices E).

Lemma nullish_None {A} (a : option A) : nullish a None = a.
Proof. by destruct a. Qed.

Lemma serviceCall_flag (h : gmap string string) (name : string)
  (secret : option string) :
  Headers_has h name && strict_eq_null_undefined (Headers_get h name) secret = true
  <-> exists value, Headers_get h name = Some value /\ secret = Some value.
Proof.
  unfold Headers_has, Headers_get.
  destruct (h !! lower name) as [value|], secret as [expected|];
    unfold strict_eq_null_undefined.
  - rewrite bool_decide_true by eauto. rewrite andb_true_l, bool_decide_eq_true.
    split; [intros ->; eauto | intros (? & [= ->] & [= ->]); done].
  - rewrite andb_false_r. split; [done | intros (? & _ & [=])].
  - rewrite andb_false_r. split; [done | intros (? & [=] & _)].
  - rewrite andb_false_r. split; [done | intros (? & [=] & _)].
Qed.

Lemma serviceCall_flag_no_secret (h : gmap string string) (name : string) :
  Headers_has h name && strict_eq_null_undefined (Headers_get h name) None = false.
Proof.
  unfold strict_eq_null_undefined.
  destruct (Headers_get h name); apply andb_false_r.
Qed.

Lemma extractAuthFromRequest_returns (request : Request) (s : State E) :
  isCanvas S request = false ->
  extractAuthFromRequest S request s =
    (Returned
       {| extracted_authToken := carriedToken request;
          extracted_sessionData := sessionOf S request;
          extracted_isServiceCall :=
            Headers_has (headers request) "Authorization"
            && strict_eq_null_undefined
                 (Headers_get (headers request) "Authorization")
                 (TRPC_SERVER_API_TOKEN (env S)) |},
     logged s [sessionCall S request]).
Proof.
  intros Hcanvas. unfold extractAuthFromRequest, carriedToken, sessionOf, sessionCall.
  rewrite Hcanvas, nullish_None. unfold bind.
  destruct (isBuilder S request); reflexivity.
Qed.

Lemma extractAuthFromRequest_canvas (request : Request) (s : State E) :
  isCanvas S request = true ->
  extractAuthFromRequest S request s = (Threw canvasError, s).
Proof. intros Hcanvas. unfold extractAuthFromRequest. by rewrite Hcanvas. Qed.

Lemma createAuthorizationContext_canvas (request : Request) (s : State E) :
  isCanvas S request = true ->
  createAuthorizationContext S request s = (Threw canvasError, s).
Proof. intros Hcanvas. unfold createAuthorizationContext. by rewrite Hcanvas. Qed.

Lemma extractAuthFromRequest_not_canvas (request : Request) (s s1 : State E)
  (extracted : ExtractedAuth) :
  extractAuthFromRequest S request s = (Returned extracted, s1) ->
  isCanvas S request = false.
Proof.
  intros Hrun. destruct (isCanvas S request) eqn:Hcanvas; [|done].
  by rewrite extractAuthFromRequest_canvas in Hrun.
Qed.

(** Unfolds the monad's operations in the goal. *)
Ltac run := unfold bind, ret, throw, call, alloc; cbn.

(** How [createAuthorizationContext] continues after the extraction. *)
Ltac after_extraction Hcanvas :=
  unfold createAuthorizationContext; rewrite Hcanvas; unfold bind at 1;
  rewrite (extractAuthFromRequest_returns _ _ Hcanvas); cbn.

Lemma is_Some_fmap_userId (session : option SessionData.t) :
  bool_decide (is_Some (SessionData.userId <$> session))
  = bool_decide (is_Some session).
Proof. apply bool_decide_ext. by rewrite fmap_is_Some. Qed.

(** Every run of [createAuthorizationContext] is one of these two. *)
Lemma createAuthorizationContext_run (request : Request) (s : State E) :
  isCanvas S request = false ->
  (tokenResolves S request = true
   /\ createAuthorizationContext S request s =
       (Returned
          {| userId := SessionData.userId <$> sessionOf S request;
             sessionCreatedAt := SessionData.createdAt <$> sessionOf S request;
             authToken := carriedToken request;
             isServiceCall :=
               Headers_has (headers request) "Authorization"
               && strict_eq_null_undefined
                    (Headers_get (headers request) "Authorization")
                    (TRPC_SERVER_API_TOKEN (env S));
             ownerId := resolvedOwner S request;
             isLoggedInToBuilder := capabilityOf S request (length (cells s)) |},
        {| calls := calls s ++ authorizationCalls S request;
           cells := cells s ++ [None] |}))
  \/ (tokenResolves S request = false
      /\ exists message,
          createAuthorizationContext S request s =
            (Threw (ThrownError message),
             logged s (authorizationCalls S request))).
Proof.
  intros Hcanvas.
  remember (createAuthorizationContext S request s) as result eqn:Hrun.
  revert Hrun. after_extraction Hcanvas.
  unfold tokenResolves, resolvedOwner, authorizationCalls, capabilityOf, logged.
  rewrite is_Some_fmap_userId.
  destruct (carriedToken request) as [token|]; run.
  - destruct (prisma_authorizationToken_findUnique S token) as [project|]; cbn.
    + destruct (TokenProject.userId project) as [owner|]; cbn;
        rewrite <- app_assoc; intros ->.
      * left. split; [done|].
        by destruct (isBuilder S request), (isDashboard S request),
             (bool_decide (is_Some (sessionOf S request))).
      * right. split; [done|]. by eexists.
    + rewrite <- app_assoc; intros ->. right. split; [done|]. by eexists.
  - intros ->. left. split; [done|].
    by destruct (isBuilder S request), (isDashboard S request),
         (bool_decide (is_Some (sessionOf S request))).
Qed.

Lemma createAuthorizationContext_returns (request : Request) (s : State E) :
  isCanvas S request = false ->
  tokenResolves S request = true ->
  exists ctx s', createAuthorizationContext S request s = (Returned ctx, s').
Proof.
  intros Hcanvas Hresolves.
  destruct (createAuthorizationContext_run request s Hcanvas)
    as [[_ ->] | [Hno _]]; [by eexists _, _ | congruence].
Qed.

Lemma createAuthorizationContext_returned (request : Request) (s s' : State E)
  (ctx : Authorization E) :
  createAuthorizationContext S request s = (Returned ctx, s') ->
  isCanvas S request = false
  /\ userId ctx = SessionData.userId <$> sessionOf S request
  /\ authToken ctx = carriedToken request
  /\ ownerId ctx = resolvedOwner S request
  /\ isLoggedInToBuilder ctx = capabilityOf S request (length (cells s))
  /\ calls s' = calls s ++ authorizationCalls S request.
Proof.
  intros Hrun. destruct (isCanvas S request) eqn:Hcanvas.
  { by rewrite createAuthorizationContext_canvas in Hrun. }
  destruct (createAuthorizationContext_run request s Hcanvas)
    as [[_ Heq] | [_ [message Heq]]]; rewrite Heq in Hrun; [|done].
  by injection Hrun as <- <-.
Qed.

Lemma createUserPlanContext_run (authorization : Authorization E) (s : State E) :
  createUserPlanContext S authorization s
  = (Returned (planOf S (ownerId authorization)),
     logged s (planCalls (ownerId authorization))).
Proof.
  unfold createUserPlanContext, planOf, planCalls, truthy, logged.
  destruct s as [log store].
  destruct (ownerId authorization) as [user|]; cbn; [|by rewrite app_nil_r].
  case_bool_decide; cbn; [by rewrite app_nil_r | done].
Qed.

Lemma createContext_run (request : Request) (s : State E) :
  createContext S request s =
    match createAuthorizationContext S request s with
    | (Returned authorization, s') =>
        (Returned
           {| authorization := authorization;
              domain := createDomainContext S request;
              deployment := createDeploymentContext S request;
              entri := createEntriContext S;
              userPlanFeatures := planOf S (ownerId authorization);
              trpcCache := createTrpcCache;
              postgrest := createPostrestContext S |},
         logged s' (planCalls (ownerId authorization)))
    | (Threw e, s') => (Threw e, s')
    end.
Proof.
  unfold createContext. unfold bind at 1.
  destruct (createAuthorizationContext S request s) as [[authorization|e] s'];
    [|done].
  unfold bind. by rewrite createUserPlanContext_run.
Qed.

(** C1: on a request that is not a canvas request, when the extracted auth
    token is the token of a project owned by [owner], the authorization
    context is returned, its [ownerId] is [owner] whatever the session says,
    and its [userId] is the user of the session. *)
Theorem token_owner_becomes_ownerId (request : Request) (s s1 : State E)
  (extracted : ExtractedAuth) (token : string) (project : TokenProject.t)
  (owner : string) :
  extractAuthFromRequest S request s = (Returned extracted, s1) ->
  extracted_authToken extracted = Some token ->
  prisma_authorizationToken_findUnique S token = Some project ->
  TokenProject.userId project = Some owner ->
  exists ctx s',
    createAuthorizationContext S request s = (Returned ctx, s')
    /\ ownerId ctx = Some owner
    /\ userId ctx = SessionData.userId <$> extracted_sessionData extracted.
Proof.
  intros Hextract Htoken Hfind Howner.
  pose proof (extractAuthFromRequest_not_canvas _ _ _ _ Hextract) as Hcanvas.
  rewrite (extractAuthFromRequest_returns _ _ Hcanvas) in Hextract.
  injection Hextract as <- <-. cbn in Htoken.
  after_extraction Hcanvas. rewrite Htoken. run. rewrite Hfind, Howner.
  eexists _, _. split; [reflexivity|]. by split.
Qed.

(** C2: when the request carries a token and the token table has no row for
    it, or the row's project has no owner, the construction of the
    authorization context throws an error; so does [createContext]. *)
Theorem unresolved_token_throws (request : Request) (s : State E) (token : string) :
  carriedToken request = Some token ->
  (prisma_authorizationToken_findUnique S token = None
   \/ exists project,
        prisma_authorizationToken_findUnique S token = Some project
        /\ TokenProject.userId project = None) ->
  exists message s',
    createAuthorizationContext S request s = (Threw (ThrownError message), s')
    /\ createContext S request s = (Threw (ThrownError message), s').
Proof.
  intros Htoken Hfind.
  destruct (isCanvas S request) eqn:Hcanvas.
  - exists "Canvas requests can't have authorization context", s.
    unfold createContext, bind.
    by rewrite (createAuthorizationContext_canvas _ _ Hcanvas).
  - assert (exists message s',
              createAuthorizationContext S request s
              = (Threw (ThrownError message), s')) as (message & s' & Hthrow).
    { after_extraction Hcanvas. rewrite Htoken. run.
      destruct Hfind as [-> | (project & -> & ->)]; by eexists _, _. }
    exists message, s'. split; [done|].
    unfold createContext, bind. by rewrite Hthrow.
Qed.

(** C3: on a request that is not a canvas request the extraction returns,
    and its [isServiceCall] is true exactly when the request has an
    [Authorization] header whose value is the configured secret; without a
    configured secret it is false. *)
Theorem isServiceCall_iff_secret (request : Request) (s : State E) :
  isCanvas S request = false ->
  exists extracted s',
    extractAuthFromRequest S request s = (Returned extracted, s')
    /\ (extracted_isServiceCall extracted = true
        <-> exists value,
              Headers_get (headers request) "Authorization" = Some value
              /\ TRPC_SERVER_API_TOKEN (env S) = Some value)
    /\ (TRPC_SERVER_API_TOKEN (env S) = None ->
        extracted_isServiceCall extracted = false).
Proof.
  intros Hcanvas. rewrite (extractAuthFromRequest_returns _ _ Hcanvas).
  eexists _, _. split; [reflexivity|].
  cbn [extracted_isServiceCall]. split.
  - apply serviceCall_flag.
  - intros ->. apply serviceCall_flag_no_secret.
Qed.

(** C4: on a builder request with a session, whenever the authorization
    context is returned its [isLoggedInToBuilder] is a function that answers
    true for the project id parsed from the request's URL and false for any
    other id; the context is returned when the request is not a canvas
    request and its token, if any, resolves. *)
Theorem builder_capability_compares_project (request : Request) (s : State E) :
  isBuilder S request = true ->
  is_Some (sessionOf S request) ->
  (isCanvas S request = false -> tokenResolves S request = true ->
   exists ctx s', createAuthorizationContext S request s = (Returned ctx, s'))
  /\ forall ctx s',
       createAuthorizationContext S request s = (Returned ctx, s') ->
       exists capability,
         isLoggedInToBuilder ctx = Some capability
         /\ forall (X : string) (s0 : State E),
              exists answer,
                capability X s0 = (Returned answer, s0)
                /\ (answer = true
                    <-> ParsedBuilderUrl.projectId
                          (parseBuilderUrl S (href (url request))) = Some X).
Proof.
  intros Hbuilder Hsession. split.
  { apply createAuthorizationContext_returns. }
  intros ctx s' Hrun.
  apply createAuthorizationContext_returned in Hrun
    as (_ & _ & _ & _ & Hcapability & _).
  unfold capabilityOf in Hcapability.
  rewrite Hbuilder, bool_decide_true in Hcapability by done.
  eexists. split; [exact Hcapability|].
  intros X s0. eexists. split; [reflexivity|]. apply bool_decide_eq_true.
Qed.

(** C5: on a request that is not a canvas request and is neither a dashboard
    request with a session nor a builder request with a session, whenever
    the authorization context is returned its [isLoggedInToBuilder] is
    undefined; the context is returned when the token, if any, resolves. *)
Theorem no_capability_without_surface_session (request : Request) (s : State E) :
  isCanvas S request = false ->
  ~ (isDashboard S request = true /\ is_Some (sessionOf S request)) ->
  ~ (isBuilder S request = true /\ is_Some (sessionOf S request)) ->
  (tokenResolves S request = true ->
   exists ctx s', createAuthorizationContext S request s = (Returned ctx, s'))
  /\ forall ctx s',
       createAuthorizationContext S request s = (Returned ctx, s') ->
       isLoggedInToBuilder ctx = None.
Proof.
  intros Hcanvas Hdashboard Hbuilder. split.
  { by apply createAuthorizationContext_returns. }
  intros ctx s' Hrun.
  apply createAuthorizationContext_returned in Hrun
    as (_ & _ & _ & _ & -> & _).
  unfold capabilityOf.
  destruct (isBuilder S request) eqn:Hb, (isDashboard S request) eqn:Hd;
    case_bool_decide; cbn; try done; exfalso; auto.
Qed.

(** What [createContext] does with the owner: it returns whenever the request
    is not a canvas request and its token, if any, resolves; in every context it
    returns, [userPlanFeatures] is the plan lookup of [ownerId] when
    [ownerId] is a non-empty string, and undefined when [ownerId] is
    undefined or the empty string; the lookup is called in the first case
    only. *)
Theorem plan_features_follow_nonempty_owner (request : Request) (s : State E) :
  (isCanvas S request = false -> tokenResolves S request = true ->
   exists ctx s', createContext S request s = (Returned ctx, s'))
  /\ forall ctx s',
       createContext S request s = (Returned ctx, s') ->
       ownerId (authorization ctx) = resolvedOwner S request
       /\ userPlanFeatures ctx
          = match ownerId (authorization ctx) with
            | Some owner =>
                if bool_decide (owner = "") then None
                else Some (getUserPlanFeatures S owner)
            | None => None
            end
       /\ calls s'
          = calls s ++ authorizationCalls S request
            ++ match ownerId (authorization ctx) with
               | Some owner =>
                   if bool_decide (owner = "") then []
                   else [CallGetUserPlanFeatures owner]
               | None => []
               end.
Proof.
  rewrite createContext_run. split.
  - intros Hcanvas Hresolves.
    destruct (createAuthorizationContext_returns request s Hcanvas Hresolves)
      as (authorization & s' & ->).
    by eexists _, _.
  - intros ctx s'.
    destruct (createAuthorizationContext S request s)
      as [[authorization|e] s1] eqn:Hrun; [|done].
    intros [= <- <-]. cbn.
    apply createAuthorizationContext_returned in Hrun
      as (_ & _ & _ & Howner & _ & Hcalls).
    split; [done|]. split; [done|].
    by rewrite Hcalls, <- app_assoc.
Qed.

(** C8: on a canvas request both the extraction and the construction of the
    authorization context throw, before any call is made. *)
Theorem canvas_request_throws (request : Request) (s : State E) :
  isCanvas S request = true ->
  extractAuthFromRequest S request s = (Threw canvasError, s)
  /\ createAuthorizationContext S request s = (Threw canvasError, s).
Proof.
  intros Hcanvas. split.
  - by apply extractAuthFromRequest_canvas.
  - by apply createAuthorizationContext_canvas.
Qed.

(** C10: on a request that is not a canvas request and whose [authToken]
    query parameter is the empty string, the extraction returns the empty
    string as token, whatever the [x-auth-token] header holds, and
    [createAuthorizationContext] looks the empty string up in the token
    table: the lookup is its second call, and a returned context carries the
    empty token and the owner that lookup gave. *)
Theorem empty_query_token_is_looked_up (request : Request) (s : State E) :
  isCanvas S request = false ->
  URLSearchParams_get (searchParams (url request)) "authToken" = Some "" ->
  (exists extracted s1,
     extractAuthFromRequest S request s = (Returned extracted, s1)
     /\ extracted_authToken extracted = Some "")
  /\ exists outcome s',
       createAuthorizationContext S request s = (outcome, s')
       /\ calls s' = calls s ++ [sessionCall S request;
                                  CallAuthorizationTokenFindUnique ""]
       /\ (prisma_authorizationToken_findUnique S "" = None ->
           outcome = Threw (ThrownError "Project owner can't be found for token "))
       /\ forall ctx, outcome = Returned ctx ->
            authToken ctx = Some ""
            /\ ownerId ctx
               = prisma_authorizationToken_findUnique S "" ≫= TokenProject.userId.
Proof.
  intros Hcanvas Hquery.
  assert (carriedToken request = Some "") as Htoken.
  { unfold carriedToken. by rewrite Hquery. }
  split.
  { rewrite (extractAuthFromRequest_returns _ _ Hcanvas).
    by eexists _, _. }
  after_extraction Hcanvas. rewrite Htoken. run.
  destruct (prisma_authorizationToken_findUnique S "") as [project|]; cbn.
  - destruct (TokenProject.userId project) as [owner|]; cbn.
    + eexists _, _. split; [reflexivity|]. cbn. rewrite <- app_assoc.
      split; [done|]. split; [done|]. by intros ctx [= <-].
    + eexists _, _. split; [reflexivity|]. cbn. rewrite <- app_assoc.
      split; [done|]. split; done.
  - eexists _, _. split; [reflexivity|]. cbn. rewrite <- app_assoc.
    split; [done|]. split; done.
Qed.


(** *** Further facts *)

(** X1: on a request that is not a canvas request the extraction takes the
    token from the [authToken] query parameter whenever the URL has one, and
    from the [x-auth-token] header only when it has none. *)
Theorem extracted_token_prefers_query (request : Request) (s : State E) :
  isCanvas S request = false ->
  exists extracted s',
    extractAuthFromRequest S request s = (Returned extracted, s')
    /\ (forall fromQuery,
          URLSearchParams_get (searchParams (url request)) "authToken"
          = Some fromQuery ->
          extracted_authToken extracted = Some fromQuery)
    /\ (URLSearchParams_get (searchParams (url request)) "authToken" = None ->
        extracted_authToken extracted
        = Headers_get (headers request) "x-auth-token").
Proof.
  intros Hcanvas. rewrite (extractAuthFromRequest_returns _ _ Hcanvas).
  eexists _, _. split; [reflexivity|]. cbn [extracted_authToken].
  unfold carriedToken. split.
  - by intros fromQuery ->.
  - by intros ->.
Qed.

(** X2: on a request that is not a canvas request the extraction asks one
    authenticator only, the builder's on a builder request and the general
    one otherwise, returns that authenticator's answer as session, and makes
    no other call. *)
Theorem extraction_asks_one_authenticator (request : Request) (s : State E) :
  isCanvas S request = false ->
  exists extracted,
    extractAuthFromRequest S request s
    = (Returned extracted,
       logged s [CallIsAuthenticated
                   (if isBuilder S request
                    then BuilderAuthenticator else GenericAuthenticator)
                   request])
    /\ extracted_sessionData extracted
       = if isBuilder S request
         then builderAuthenticator_isAuthenticated S request
         else authenticator_isAuthenticated S request.
Proof.
  intros Hcanvas. rewrite (extractAuthFromRequest_returns _ _ Hcanvas).
  by eexists.
Qed.

(** X3: the authorization context is returned exactly for the requests that
    are not canvas requests and whose token, if they carry one, has a row
    with an owned project. *)
Theorem authorization_context_returned_iff (request : Request) (s : State E) :
  (exists ctx s', createAuthorizationContext S request s = (Returned ctx, s'))
  <-> isCanvas S request = false /\ tokenResolves S request = true.
Proof.
  split.
  - intros (ctx & s' & Hrun).
    destruct (isCanvas S request) eqn:Hcanvas.
    { by rewrite createAuthorizationContext_canvas in Hrun. }
    split; [done|].
    destruct (createAuthorizationContext_run request s Hcanvas)
      as [[Hresolves _] | [_ [message Heq]]]; [done|].
    by rewrite Heq in Hrun.
  - intros [Hcanvas Hresolves].
    by apply createAuthorizationContext_returns.
Qed.

(** X4: the error of an unresolved token names what is missing: the token
    when the table has no row for it, the project's id when the project has
    no owner. In both cases the session and the token were looked up, in
    this order, and nothing else. *)
Theorem unresolved_token_error_message (request : Request) (s : State E)
  (token : string) :
  isCanvas S request = false ->
  carriedToken request = Some token ->
  (prisma_authorizationToken_findUnique S token = None ->
   createAuthorizationContext S request s
   = (Threw (ThrownError ("Project owner can't be found for token " +:+ token)),
      logged s [sessionCall S request; CallAuthorizationTokenFindUnique token]))
  /\ (forall project,
        prisma_authorizationToken_findUnique S token = Some project ->
        TokenProject.userId project = None ->
        createAuthorizationContext S request s
        = (Threw (ThrownError
                    ("Project " +:+ TokenProject.id project +:+ " has null userId")),
           logged s [sessionCall S request;
                     CallAuthorizationTokenFindUnique token])).
Proof.
  intros Hcanvas Htoken. split.
  - intros Hfind. after_extraction Hcanvas. rewrite Htoken. run.
    rewrite Hfind. unfold logged. cbn. by rewrite <- app_assoc.
  - intros project Hfind Howner. after_extraction Hcanvas. rewrite Htoken. run.
    rewrite Hfind, Howner. unfold logged. cbn. by rewrite <- app_assoc.
Qed.

(** X5: on a request that is not a canvas request and carries no token, the
    context is returned with the session's user as owner ([ownerId] equals
    [userId], both undefined without session), and the token table is not
    consulted: the session lookup is the only call. *)
Theorem no_token_owner_is_session_user (request : Request) (s : State E) :
  isCanvas S request = false ->
  carriedToken request = None ->
  exists ctx s',
    createAuthorizationContext S request s = (Returned ctx, s')
    /\ authToken ctx = None
    /\ ownerId ctx = userId ctx
    /\ userId ctx = SessionData.userId <$> sessionOf S request
    /\ calls s' = calls s ++ [sessionCall S request].
Proof.
  intros Hcanvas Htoken.
  destruct (createAuthorizationContext_run request s Hcanvas)
    as [[_ ->] | [Hno _]].
  - eexists _, _. split; [reflexivity|]. cbn.
    unfold resolvedOwner, authorizationCalls. by rewrite Htoken.
  - unfold tokenResolves in Hno. by rewrite Htoken in Hno.
Qed.

(** X6: in every authorization context that is returned,
    [isLoggedInToBuilder] is defined exactly when the request has a session
    and is a dashboard request or a builder request. *)
Theorem capability_defined_iff (request : Request) (s s' : State E)
  (ctx : Authorization E) :
  createAuthorizationContext S request s = (Returned ctx, s') ->
  (is_Some (isLoggedInToBuilder ctx)
   <-> (is_Some (userId ctx)
        /\ (isDashboard S request = true \/ isBuilder S request = true))).
Proof.
  intros Hrun.
  apply createAuthorizationContext_returned in Hrun
    as (_ & -> & _ & _ & -> & _).
  rewrite fmap_is_Some. unfold capabilityOf.
  destruct (isBuilder S request), (isDashboard S request);
    case_bool_decide as Hsession; cbn;
    (split; [intros Hdefined | intros [Hs Hsurface]]);
    try (by apply is_Some_None in Hdefined);
    try (by destruct Hsurface);
    try done; try (split; [done | auto]); by eauto.
Qed.

Lemma dashboardIsLoggedInToBuilder_first (request : Request) (cell : nat)
  (projectId : string) (s : State E) :
  cells s !! cell = Some None ->
  dashboardIsLoggedInToBuilder S request cell projectId s
  = (Returned (BloomFilter_has E (readLoginSessionBloomFilter S request) projectId),
     {| calls := calls s ++ [CallReadLoginSessionBloomFilter request];
        cells := <[cell := Some (readLoginSessionBloomFilter S request)]> (cells s) |}).
Proof.
  intros Hcell. unfold dashboardIsLoggedInToBuilder, bind, read, write, call, ret.
  by rewrite Hcell.
Qed.

Lemma dashboardIsLoggedInToBuilder_later (request : Request) (cell : nat)
  (projectId : string) (filter : BloomFilter E) (s : State E) :
  cells s !! cell = Some (Some filter) ->
  dashboardIsLoggedInToBuilder S request cell projectId s
  = (Returned (BloomFilter_has E filter projectId), s).
Proof.
  intros Hcell. unfold dashboardIsLoggedInToBuilder, bind, read, ret.
  by rewrite Hcell.
Qed.

Lemma askAll_dashboard_later (request : Request) (cell : nat)
  (filter : BloomFilter E) (projectIds : list string) (s : State E) :
  cells s !! cell = Some (Some filter) ->
  askAll (dashboardIsLoggedInToBuilder S request cell) projectIds s
  = (Returned (map (BloomFilter_has E filter) projectIds), s).
Proof.
  intros Hcell. induction projectIds as [|projectId rest IH]; [done|].
  cbn [askAll map]. unfold bind at 1.
  rewrite (dashboardIsLoggedInToBuilder_later _ _ _ _ _ Hcell).
  unfold bind at 1. by rewrite IH.
Qed.

(** X7: on a dashboard request (not a builder request) with a session, the
    returned capability reads the login bloom filter lazily and once: the
    construction itself does not read it, and a caller that then asks about
    one or more projects gets the filter's answer for each of them while the
    filter is read by the first question only. *)
Theorem dashboard_capability_reads_filter_once (request : Request)
  (s s' : State E) (ctx : Authorization E) :
  isDashboard S request = true ->
  isBuilder S request = false ->
  is_Some (sessionOf S request) ->
  createAuthorizationContext S request s = (Returned ctx, s') ->
  calls s' = calls s ++ authorizationCalls S request
  /\ (CallReadLoginSessionBloomFilter request ∉ authorizationCalls S request)
  /\ exists capability,
       isLoggedInToBuilder ctx = Some capability
       /\ forall (projectId : string) (rest : list string),
            exists s'',
              askAll capability (projectId :: rest) s'
              = (Returned
                   (map (BloomFilter_has E (readLoginSessionBloomFilter S request))
                      (projectId :: rest)),
                 s'')
              /\ calls s''
                 = calls s' ++ [CallReadLoginSessionBloomFilter request].
Proof.
  intros Hdashboard Hbuilder Hsession Hrun. split.
  { by apply createAuthorizationContext_returned in Hrun
      as (_ & _ & _ & _ & _ & ?). }
  split.
  { unfold authorizationCalls, sessionCall. intros Hin.
    destruct (carriedToken request);
      repeat (apply elem_of_cons in Hin as [Hin|Hin]; [discriminate Hin|]);
      by apply elem_of_nil in Hin. }
  destruct (isCanvas S request) eqn:Hcanvas.
  { by rewrite createAuthorizationContext_canvas in Hrun. }
  destruct (createAuthorizationContext_run request s Hcanvas)
    as [[_ Heq] | [_ [message Heq]]]; rewrite Heq in Hrun; [|done].
  injection Hrun as <- <-. cbn [isLoggedInToBuilder].
  unfold capabilityOf. rewrite Hbuilder, Hdashboard, bool_decide_true by done.
  cbn. eexists. split; [reflexivity|].
  intros projectId rest. cbn [askAll]. unfold bind at 1.
  rewrite dashboardIsLoggedInToBuilder_first
    by (cbn; by rewrite lookup_app_r, Nat.sub_diag by done).
  unfold bind at 1.
  rewrite (askAll_dashboard_later _ _ (readLoginSessionBloomFilter S request)).
  - eexists. split; [reflexivity|]. done.
  - cbn. rewrite list_lookup_insert_eq; [done|].
    rewrite length_app. cbn. lia.
Qed.

(** X8: when the request is not a canvas request and its token belongs to a
    project with a non-empty owner, [createContext] returns and the plan
    features of the context are those of the project's owner, whoever the
    session's user is; the plan lookup for the owner is its last call. *)
Theorem token_owner_plan_features (request : Request) (s : State E)
  (token : string) (project : TokenProject.t) (owner : string) :
  isCanvas S request = false ->
  carriedToken request = Some token ->
  prisma_authorizationToken_findUnique S token = Some project ->
  TokenProject.userId project = Some owner ->
  owner <> "" ->
  exists ctx s',
    createContext S request s = (Returned ctx, s')
    /\ ownerId (authorization ctx) = Some owner
    /\ userId (authorization ctx) = SessionData.userId <$> sessionOf S request
    /\ userPlanFeatures ctx = Some (getUserPlanFeatures S owner)
    /\ calls s'
       = calls s ++ [sessionCall S request;
                     CallAuthorizationTokenFindUnique token;
                     CallGetUserPlanFeatures owner].
Proof.
  intros Hcanvas Htoken Hfind Howner Hnonempty.
  rewrite createContext_run.
  assert (resolvedOwner S request = Some owner) as Hresolved.
  { unfold resolvedOwner. by rewrite Htoken, Hfind. }
  destruct (createAuthorizationContext_run request s Hcanvas)
    as [[_ ->] | [Hno _]].
  - eexists _, _. split; [reflexivity|]. cbn. rewrite Hresolved.
    unfold planOf, planCalls, authorizationCalls.
    rewrite Htoken, bool_decide_false by done. cbn.
    split; [done|]. split; [done|]. split; [done|].
    by rewrite <- app_assoc.
  - unfold tokenResolves in Hno. rewrite Htoken, Hfind, Howner in Hno.
    by rewrite bool_decide_true in Hno by eauto.
Qed.

End ContextFacts.

(** ** Facts about the cache of maximum ages *)

Lemma getMaxAge_setMaxAge (path other : string) (value : Z) (cache : gmap string Z) :
  getMaxAge path (setMaxAge other value cache)
  = if bool_decide (other = path)
    then Some (Z.min (default Number_MAX_SAFE_INTEGER (getMaxAge path cache)) value)
    else getMaxAge path cache.
Proof.
  unfold getMaxAge, setMaxAge. case_bool_decide as Hpath.
  - subst other. by rewrite lookup_insert_eq.
  - by rewrite lookup_insert_ne.
Qed.

Lemma recorded_cons (path other : string) (value : Z) (sets : list (string * Z)) :
  recorded path ((other, value) :: sets)
  = if bool_decide (other = path) then value :: recorded path sets
    else recorded path sets.
Proof.
  unfold recorded. rewrite filter_cons. cbn.
  case_bool_decide; by case_decide.
Qed.

Lemma getMaxAge_setMaxAges (path : string) (sets : list (string * Z))
  (cache : gmap string Z) :
  getMaxAge path (setMaxAges sets cache)
  = match minimum (recorded path sets) with
    | Some least =>
        Some (Z.min (default Number_MAX_SAFE_INTEGER (getMaxAge path cache)) least)
    | None => getMaxAge path cache
    end.
Proof.
  revert cache. induction sets as [|[other value] sets IH]; intros cache; [done|].
  cbn [setMaxAges foldl fst snd]. fold (setMaxAges sets (setMaxAge other value cache)).
  rewrite IH, getMaxAge_setMaxAge, recorded_cons.
  case_bool_decide; [|done]. cbn [minimum].
  destruct (minimum (recorded path sets)) as [least|]; cbn; f_equal; lia.
Qed.

Lemma minimum_Permutation (values values' : list Z) :
  values ≡ₚ values' -> minimum values = minimum values'.
Proof.
  induction 1 as [|x l l' _ IH|x y l|l l' l'' _ IH1 _ IH2]; cbn.
  - done.
  - by rewrite IH.
  - destruct (minimum l); f_equal; lia.
  - congruence.
Qed.

(** What the cache holds: after any sequence of [setMaxAge] calls on a
    fresh cache, [getMaxAge] of a path is the least of
    [Number.MAX_SAFE_INTEGER] and the values the calls gave for that path,
    and undefined when no call named the path. *)
Theorem getMaxAge_is_capped_minimum (path : string) (sets : list (string * Z)) :
  getMaxAge path (setMaxAges sets createTrpcCache)
  = Z.min Number_MAX_SAFE_INTEGER <$> minimum (recorded path sets).
Proof.
  rewrite getMaxAge_setMaxAges. unfold getMaxAge at 1, createTrpcCache.
  rewrite lookup_empty. by destruct (minimum (recorded path sets)).
Qed.

(** The order of the calls does not matter. *)
Lemma getMaxAge_order_independent (path : string) (sets sets' : list (string * Z)) :
  sets ≡ₚ sets' ->
  getMaxAge path (setMaxAges sets createTrpcCache)
  = getMaxAge path (setMaxAges sets' createTrpcCache).
Proof.
  intros Hperm. rewrite !getMaxAge_setMaxAges.
  assert (minimum (recorded path sets) = minimum (recorded path sets')) as ->; [|done].
  apply minimum_Permutation. unfold recorded. by rewrite Hperm.
Qed.

(** X20: when every value given for a path is at most
    [Number.MAX_SAFE_INTEGER], the age read back on a cache that started
    empty is the least of those values itself. *)
Lemma getMaxAge_is_minimum_of_safe_values (path : string) (sets : list (string * Z)) :
  Forall (fun value => value <= Number_MAX_SAFE_INTEGER) (recorded path sets) ->
  getMaxAge path (setMaxAges sets createTrpcCache) = minimum (recorded path sets).
Proof.
  intros Hsafe. rewrite getMaxAge_setMaxAges.
  unfold getMaxAge at 1 2, createTrpcCache. rewrite lookup_empty. cbn.
  induction Hsafe as [|value rest Hvalue _ IH]; [done|]. cbn in *.
  destruct (minimum rest) as [least|]; cbn in *; f_equal; [|lia].
  injection IH as IH. lia.
Qed.

Example getMaxAge_50_10_80 :
  getMaxAge "project.load"
    (setMaxAges [("project.load", 50); ("project.load", 10); ("project.load", 80)]
       createTrpcCache)
  = Some 10.
Proof. reflexivity. Qed.

Example getMaxAge_unset :
  getMaxAge "project.load" (setMaxAges [("other", 50)] createTrpcCache) = None.
Proof. reflexivity. Qed.

(** The minimum of the values is not always what is read back. *)
Lemma large_age_is_capped : ~ keepsMinimumOfValues.
Proof.
  intros Hclaim.
  specialize (Hclaim "project.load" [("project.load", 9007199254740992)]).
  vm_compute in Hclaim. discriminate Hclaim.
Qed.


(** *** Further facts *)

Lemma setMaxAge_comm (path other : string) (value age : Z) (cache : gmap string Z) :
  setMaxAge path value (setMaxAge other age cache)
  = setMaxAge other age (setMaxAge path value cache).
Proof.
  apply map_eq. intros key. unfold setMaxAge.
  destruct (decide (path = other)) as [->|Hne].
  - rewrite !lookup_insert_eq. cbn.
    destruct (decide (other = key)) as [->|Hkey].
    + rewrite !lookup_insert_eq. f_equal. lia.
    + by rewrite !lookup_insert_ne.
  - rewrite (lookup_insert_ne _ other path), (lookup_insert_ne _ path other) by done.
    by rewrite insert_insert_ne.
Qed.

(** X9: the cache that a sequence of [setMaxAge] calls leaves does not
    depend on the order of the calls, whatever the cache held before: every
    path ends with the same age. *)
Theorem setMaxAges_order_independent (sets sets' : list (string * Z))
  (cache : gmap string Z) :
  sets ≡ₚ sets' ->
  setMaxAges sets cache = setMaxAges sets' cache.
Proof.
  intros Hperm. revert cache.
  induction Hperm as [|set sets sets' _ IH|set set' sets|sets sets' sets'' _ IH1 _ IH2];
    intros cache; cbn.
  - done.
  - apply IH.
  - unfold setMaxAges. cbn. by rewrite setMaxAge_comm.
  - by rewrite IH1.
Qed.

(** X10: [setMaxAge] calls never remove a path and never raise its age: a
    path that had an age keeps one, which is the least of the old age and
    the values the calls gave for the path, hence at most the old age. *)
Theorem setMaxAges_only_lowers (sets : list (string * Z)) (cache : gmap string Z)
  (path : string) (old : Z) :
  getMaxAge path cache = Some old ->
  exists age,
    getMaxAge path (setMaxAges sets cache) = Some age
    /\ age = default old (Z.min old <$> minimum (recorded path sets))
    /\ age <= old.
Proof.
  intros Hold. rewrite getMaxAge_setMaxAges, Hold. cbn.
  destruct (minimum (recorded path sets)) as [least|]; cbn;
    eexists; (split; [reflexivity|]); split; [done|lia|done|lia].
Qed.

(** X11: calls of [setMaxAge] for other paths leave the age of a path as it
    was, also when the path has none. *)
Theorem setMaxAges_other_paths (sets : list (string * Z)) (cache : gmap string Z)
  (path : string) :
  path ∉ sets.*1 ->
  getMaxAge path (setMaxAges sets cache) = getMaxAge path cache.
Proof.
  intros Hfresh. rewrite getMaxAge_setMaxAges.
  assert (recorded path sets = []) as ->; [|done].
  induction sets as [|[other value] sets IH]; [done|].
  rewrite fmap_cons in Hfresh. apply not_elem_of_cons in Hfresh as [Hne Hfresh].
  rewrite recorded_cons. case_bool_decide; [by subst|]. by apply IH.
Qed.

(** X12: on a cache that started empty, every age that is stored is at most
    [Number.MAX_SAFE_INTEGER], and a path has an age exactly when a call
    named it. *)
Theorem fresh_cache_ages_are_capped (sets : list (string * Z)) (path : string) :
  (forall age,
     getMaxAge path (setMaxAges sets createTrpcCache) = Some age ->
     age <= Number_MAX_SAFE_INTEGER)
  /\ (is_Some (getMaxAge path (setMaxAges sets createTrpcCache))
      <-> path ∈ sets.*1).
Proof.
  rewrite getMaxAge_setMaxAges. unfold getMaxAge at 1 2 3 4, createTrpcCache.
  rewrite lookup_empty. cbn.
  assert (is_Some (minimum (recorded path sets)) <-> path ∈ sets.*1) as Hnamed.
  { induction sets as [|[other value] sets IH].
    - cbn. rewrite elem_of_nil. split; [intros [? [=]] | done].
    - rewrite recorded_cons, fmap_cons, elem_of_cons. cbn [fst].
      case_bool_decide as Hother.
      + cbn [minimum]. split; [by left | by eauto].
      + rewrite IH. split; [by right | intros [->|]; done]. }
  destruct (minimum (recorded path sets)) as [least|]; split.
  - intros age [= <-]. lia.
  - rewrite <- Hnamed. split; by eauto.
  - by intros age [=].
  - rewrite <- Hnamed. split; intros [? [=]].
Qed.

(** ** Facts about the dashboard route *)

Section DashboardFacts.
Context {E : Entities} (S : ContextServices E) (L : LoaderServices E).

Lemma loader_not_dashboard (request : Request) (s : State E) :
  isDashboard S request = false ->
  loader S L request s = (Threw (ThrownResponse notFound), s).
Proof. intros Hsurface. unfold loader. by rewrite Hsurface. Qed.

(** C9: on a dashboard request that passes the origin check and the
    destination check and has no authenticated user, the loader throws the
    redirect to [loginPath] with [returnTo] the path of the request's URL;
    the lookup of the user is the only call it makes, so neither the context
    is built nor projects are fetched. *)
Theorem unauthenticated_dashboard_redirects (request : Request) (s : State E) :
  isDashboard S request = true ->
  preventCrossOriginCookie L request = None ->
  allowedDestinations L request ["document"; "empty"] = None ->
  findAuthenticatedUser L request = None ->
  loader S L request s
  = (Threw (ThrownResponse
              (redirect L (loginPath L {| returnTo := pathname (url request) |}))),
     logged s [CallFindAuthenticatedUser request]).
Proof.
  intros Hsurface Horigin Hdestination Huser.
  unfold loader, bind, guard, call, throw, ret, logged.
  by rewrite Hsurface, Horigin, Hdestination, Huser.
Qed.

(** *** Further facts *)

(** The loader once the request is a dashboard request, passed both checks
    and has an authenticated user. *)
Lemma loader_authenticated_run (request : Request) (s : State E) (user : User E) :
  isDashboard S request = true ->
  preventCrossOriginCookie L request = None ->
  allowedDestinations L request ["document"; "empty"] = None ->
  findAuthenticatedUser L request = Some user ->
  loader S L request s
  = match createContext S request (logged s [CallFindAuthenticatedUser request]) with
    | (Returned context, s') =>
        let fetched :=
          logged s' [CallFindMany (User_id E user);
                     CallFindManyByIds (PROJECT_TEMPLATES (env S))] in
        match userPlanFeatures context with
        | Some features =>
            (Returned
               {| data_user := user;
                  data_projects :=
                    dashboardProjectCaller_findMany L context (User_id E user);
                  data_projectTemplates :=
                    dashboardProjectCaller_findManyByIds L context
                      (PROJECT_TEMPLATES (env S));
                  data_userPlanFeatures := features;
                  data_publisherHost := PUBLISHER_HOST (env S);
                  data_imageBaseUrl := IMAGE_BASE_URL (env S);
                  data_origin :=
                    ParsedBuilderUrl.sourceOrigin
                      (parseBuilderUrl S (href (url request))) |},
             fetched)
        | None => (Threw (ThrownError "User plan features are not defined"), fetched)
        end
    | (Threw e, s') => (Threw e, s')
    end.
Proof.
  intros Hsurface Horigin Hdestination Huser.
  unfold loader. rewrite Hsurface, Horigin, Hdestination. cbn [negb guard].
  unfold bind at 1. unfold ret at 1. unfold bind at 1. unfold ret at 1.
  unfold bind at 1. unfold call at 1. rewrite Huser.
  unfold bind at 1. fold (logged s [CallFindAuthenticatedUser request]).
  destruct (createContext S request (logged s [CallFindAuthenticatedUser request]))
    as [[context|e] s']; [|done].
  unfold bind, call, logged. cbn. rewrite <- app_assoc. cbn.
  by destruct (userPlanFeatures context).
Qed.

(** X13: on a request that is not a dashboard request the loader throws the
    404 response before any check or call, whoever sent it. *)
Theorem loader_rejects_other_surfaces (request : Request) (s : State E) :
  isDashboard S request = false ->
  loader S L request s
  = (Threw (ThrownResponse
              {| body := None; status := 404; statusText := "Not Found";
                 responseHeaders := ∅ |}),
     s).
Proof. apply loader_not_dashboard. Qed.

Lemma loader_failed_check (request : Request) (s : State E) (e : Thrown) :
  isDashboard S request = true ->
  (preventCrossOriginCookie L request = Some e
   \/ (preventCrossOriginCookie L request = None
       /\ allowedDestinations L request ["document"; "empty"] = Some e)) ->
  loader S L request s = (Threw e, s).
Proof.
  intros Hsurface Hcheck. unfold loader, bind, guard, throw, ret.
  rewrite Hsurface. cbn.
  by destruct Hcheck as [-> | [-> ->]].
Qed.

(** X14: on a dashboard request that fails the origin check, or passes it
    and fails the destination check, the loader throws what the check threw
    and has made no call: the user is not looked up and nothing is
    fetched. *)
Theorem loader_failed_check_aborts (request : Request) (s : State E) (e : Thrown) :
  isDashboard S request = true ->
  (preventCrossOriginCookie L request = Some e
   \/ (preventCrossOriginCookie L request = None
       /\ allowedDestinations L request ["document"; "empty"] = Some e)) ->
  loader S L request s = (Threw e, s).
Proof. apply loader_failed_check. Qed.

(** X15: the loader returns data when the request is a dashboard request
    that passes both checks, has an authenticated user, is not a canvas
    request, carries no token or one that resolves, and the resolved owner is
    a non-empty id. The data hold the authenticated user, that user's
    projects and the template projects, both fetched with the context built
    for the request, the plan of the resolved owner, and the source origin
    of the request's URL. The calls are, in order: the user, the context's
    calls, the user's projects, the templates. *)
Theorem loader_returns_dashboard_data (request : Request) (s : State E)
  (user : User E) (owner : string) :
  isDashboard S request = true ->
  preventCrossOriginCookie L request = None ->
  allowedDestinations L request ["document"; "empty"] = None ->
  findAuthenticatedUser L request = Some user ->
  isCanvas S request = false ->
  tokenResolves S request = true ->
  resolvedOwner S request = Some owner ->
  owner <> "" ->
  exists context data s1 s',
    createContext S request (logged s [CallFindAuthenticatedUser request])
    = (Returned context, s1)
    /\ loader S L request s = (Returned data, s')
    /\ data_user data = user
    /\ data_projects data
       = dashboardProjectCaller_findMany L context (User_id E user)
    /\ data_projectTemplates data
       = dashboardProjectCaller_findManyByIds L context (PROJECT_TEMPLATES (env S))
    /\ data_userPlanFeatures data = getUserPlanFeatures S owner
    /\ data_origin data
       = ParsedBuilderUrl.sourceOrigin (parseBuilderUrl S (href (url request)))
    /\ calls s'
       = calls s ++ [CallFindAuthenticatedUser request] ++ contextCalls S request
         ++ [CallFindMany (User_id E user);
             CallFindManyByIds (PROJECT_TEMPLATES (env S))].
Proof.
  intros Hsurface Horigin Hdestination Huser Hcanvas Hresolves Howner Hnonempty.
  rewrite (loader_authenticated_run _ _ _ Hsurface Horigin Hdestination Huser).
  rewrite createContext_run.
  destruct (createAuthorizationContext_run S request
              (logged s [CallFindAuthenticatedUser request]) Hcanvas)
    as [[_ ->] | [Hno _]]; [|congruence].
  cbn [ownerId userPlanFeatures]. rewrite Howner.
  unfold planOf, planCalls. rewrite bool_decide_false by done.
  eexists _, _, _, _. split; [reflexivity|]. split; [reflexivity|].
  cbn. unfold contextCalls, planCalls.
  rewrite Howner, bool_decide_false by done.
  repeat (split; [reflexivity|]). by rewrite <- !app_assoc.
Qed.

(** X16: when everything is as for returned data except that no owner, or
    the empty string as owner, was resolved, the loader throws the error
    about missing plan features, and it does so after it has fetched the
    user's projects and the templates. *)
Theorem loader_without_plan_throws_after_fetch (request : Request) (s : State E)
  (user : User E) :
  isDashboard S request = true ->
  preventCrossOriginCookie L request = None ->
  allowedDestinations L request ["document"; "empty"] = None ->
  findAuthenticatedUser L request = Some user ->
  isCanvas S request = false ->
  tokenResolves S request = true ->
  (resolvedOwner S request = None \/ resolvedOwner S request = Some "") ->
  exists s',
    loader S L request s
    = (Threw (ThrownError "User plan features are not defined"), s')
    /\ calls s'
       = calls s ++ [CallFindAuthenticatedUser request]
         ++ authorizationCalls S request
         ++ [CallFindMany (User_id E user);
             CallFindManyByIds (PROJECT_TEMPLATES (env S))].
Proof.
  intros Hsurface Horigin Hdestination Huser Hcanvas Hresolves Howner.
  rewrite (loader_authenticated_run _ _ _ Hsurface Horigin Hdestination Huser).
  rewrite createContext_run.
  destruct (createAuthorizationContext_run S request
              (logged s [CallFindAuthenticatedUser request]) Hcanvas)
    as [[_ ->] | [Hno _]]; [|congruence].
  cbn [ownerId userPlanFeatures].
  assert (planOf S (resolvedOwner S request) = None
          /\ planCalls (resolvedOwner S request) = []) as [-> ->].
  { by destruct Howner as [-> | ->]. }
  eexists. split; [reflexivity|]. cbn. by rewrite app_nil_r, <- !app_assoc.
Qed.

(** X17: when the authorization context cannot be built for an
    authenticated dashboard request (a canvas request, an unresolved token),
    the loader throws the error of that construction unchanged and fetches
    no project. *)
Theorem loader_propagates_authorization_error (request : Request)
  (s s' : State E) (user : User E) (e : Thrown) :
  isDashboard S request = true ->
  preventCrossOriginCookie L request = None ->
  allowedDestinations L request ["document"; "empty"] = None ->
  findAuthenticatedUser L request = Some user ->
  createAuthorizationContext S request
    (logged s [CallFindAuthenticatedUser request]) = (Threw e, s') ->
  loader S L request s = (Threw e, s').
Proof.
  intros Hsurface Horigin Hdestination Huser Hthrow.
  rewrite (loader_authenticated_run _ _ _ Hsurface Horigin Hdestination Huser).
  by rewrite createContext_run, Hthrow.
Qed.

(** X18: the loader returns data only for the requests described above: a
    dashboard request that passed both checks, with an authenticated user,
    not a canvas request, with a token that resolves if there is one, and
    with a non-empty resolved owner, whose plan the data hold. *)
Theorem loader_returns_only_if (request : Request) (s s' : State E)
  (data : LoaderData E) :
  loader S L request s = (Returned data, s') ->
  isDashboard S request = true
  /\ preventCrossOriginCookie L request = None
  /\ allowedDestinations L request ["document"; "empty"] = None
  /\ findAuthenticatedUser L request = Some (data_user data)
  /\ isCanvas S request = false
  /\ tokenResolves S request = true
  /\ exists owner,
       resolvedOwner S request = Some owner
       /\ owner <> ""
       /\ data_userPlanFeatures data = getUserPlanFeatures S owner.
Proof.
  intros Hrun.
  destruct (isDashboard S request) eqn:Hsurface;
    [|by rewrite loader_not_dashboard in Hrun].
  destruct (preventCrossOriginCookie L request) as [e|] eqn:Horigin.
  { rewrite (loader_failed_check request s e) in Hrun by auto. done. }
  destruct (allowedDestinations L request ["document"; "empty"]) as [e|]
    eqn:Hdestination.
  { rewrite (loader_failed_check request s e) in Hrun by auto. done. }
  destruct (findAuthenticatedUser L request) as [user|] eqn:Huser; cycle 1.
  { revert Hrun. unfold loader, bind, guard, call, throw, ret.
    by rewrite Hsurface, Horigin, Hdestination, Huser. }
  rewrite (loader_authenticated_run _ _ _ Hsurface Horigin Hdestination Huser),
    createContext_run in Hrun.
  destruct (isCanvas S request) eqn:Hcanvas.
  { by rewrite createAuthorizationContext_canvas in Hrun. }
  destruct (createAuthorizationContext_run S request
              (logged s [CallFindAuthenticatedUser request]) Hcanvas)
    as [[Hresolves Heq] | [_ [message Heq]]]; rewrite Heq in Hrun; [|done].
  cbn [ownerId userPlanFeatures] in Hrun. unfold planOf in Hrun.
  destruct (resolvedOwner S request) as [owner|]; [|done].
  case_bool_decide as Hempty; [done|].
  injection Hrun as <- _. cbn. repeat (split; [done|]).
  exists owner. by repeat split.
Qed.

End DashboardFacts.

(** ** Facts about the route's component *)

Section ComponentFacts.
Context {E : Entities} (C : ClientServices E).

Lemma map_is_fmap {A B : Type} (f : A -> B) (l : list A) : map f l = f <$> l.
Proof. induction l as [|x l IH]; [done|]. cbn. by rewrite IH. Qed.

(** X19: the component hints at no more than the first five projects: it
    issues one DNS prefetch and one preconnect for each of them, all
    prefetches before the first preconnect, and every hinted address is the
    builder URL of one of those projects on the origin of the data. Each of
    the first five projects gets both hints: the project at position [i] has
    its prefetch at position [i] and its preconnect [i] places after the
    last prefetch. Without projects it issues nothing. *)
Theorem DashboardRoute_hints_first_five (data : LoaderData E) :
  length (filter (fun hint => isPrefetchDNS hint = true) (DashboardRoute C data))
  = (length (data_projects data) `min` 5)%nat
  /\ length (filter (fun hint => isPrefetchDNS hint = false) (DashboardRoute C data))
     = (length (data_projects data) `min` 5)%nat
  /\ (forall (i j : nat) (first second : ResourceHint),
        DashboardRoute C data !! i = Some first ->
        DashboardRoute C data !! j = Some second ->
        isPrefetchDNS first = false -> isPrefetchDNS second = true ->
        (j < i)%nat)
  /\ (forall hint,
        hint ∈ DashboardRoute C data ->
        exists (i : nat) (project : Project E),
          (i < 5)%nat
          /\ data_projects data !! i = Some project
          /\ hintHref hint
             = builderUrl C
                 {| BuilderUrlParams.projectId := Project_id C project;
                    BuilderUrlParams.origin := data_origin data |})
  /\ (forall (i : nat) (project : Project E),
        (i < 5)%nat ->
        data_projects data !! i = Some project ->
        DashboardRoute C data !! i
        = Some (PrefetchDNS
                  (builderUrl C
                     {| BuilderUrlParams.projectId := Project_id C project;
                        BuilderUrlParams.origin := data_origin data |}))
        /\ DashboardRoute C data !! ((length (data_projects data) `min` 5) + i)%nat
           = Some (Preconnect
                     (builderUrl C
                        {| BuilderUrlParams.projectId := Project_id C project;
                           BuilderUrlParams.origin := data_origin data |}))).
Proof.
  unfold DashboardRoute.
  set (shown := take 5 (data_projects data)).
  assert (forall (hintOf : Project E -> ResourceHint) (flag : bool),
            (forall project, isPrefetchDNS (hintOf project) = flag) ->
            filter (fun hint => isPrefetchDNS hint = true) (map hintOf shown)
            = (if flag then map hintOf shown else [])
            /\ filter (fun hint => isPrefetchDNS hint = false) (map hintOf shown)
               = (if flag then [] else map hintOf shown))
    as Hkind.
  { intros hintOf flag Hflag. induction shown as [|project rest [IH1 IH2]].
    - by destruct flag.
    - cbn [map]. rewrite !filter_cons, Hflag, IH1, IH2.
      destruct flag; by repeat case_decide. }
  match goal with
  | |- context [map ?prefetch shown ++ map ?preconnect shown] =>
      destruct (Hkind prefetch true) as [Hpp Hpc]; [done|];
      destruct (Hkind preconnect false) as [Hcp Hcc]; [done|]
  end.
  split; [|split; [|split; [|split]]].
  - rewrite filter_app, Hpp, Hcp, app_nil_r, length_map.
    unfold shown. by rewrite length_take, Nat.min_comm.
  - rewrite filter_app, Hpc, Hcc, app_nil_l, length_map.
    unfold shown. by rewrite length_take, Nat.min_comm.
  - rewrite !map_is_fmap.
    intros i j first second Hfirst Hsecond Hfirst_kind Hsecond_kind.
    apply lookup_app_Some in Hfirst as [Hfirst | [Hi Hfirst]].
    { apply list_lookup_fmap_Some in Hfirst as (? & -> & _). done. }
    apply lookup_app_Some in Hsecond as [Hsecond | [_ Hsecond]].
    + apply lookup_lt_Some in Hsecond. lia.
    + apply list_lookup_fmap_Some in Hsecond as (? & -> & _). done.
  - rewrite !map_is_fmap.
    intros hint Hin. apply elem_of_app in Hin as [Hin | Hin];
      apply list_elem_of_fmap in Hin as (project & -> & Hproject);
      apply list_elem_of_lookup in Hproject as [i Hi];
      apply lookup_take_Some in Hi as [Hi Hlt];
      by exists i, project.
  - rewrite !map_is_fmap. intros i project Hlt Hproject.
    assert (shown !! i = Some project) as Hshown.
    { unfold shown. by rewrite lookup_take_lt. }
    assert (length shown = (length (data_projects data) `min` 5)%nat) as Hlength.
    { unfold shown. by rewrite length_take, Nat.min_comm. }
    split.
    + rewrite lookup_app_l
        by (rewrite length_fmap; by apply lookup_lt_Some in Hshown).
      by rewrite list_lookup_fmap, Hshown.
    + rewrite lookup_app_r by (rewrite length_fmap; lia).
      rewrite length_fmap, Hlength, Nat.add_sub', list_lookup_fmap, Hshown.
      done.
Qed.

End ComponentFacts.

(** ** The statements on the concrete deployment *)

Lemma token_owner_becomes_ownerId_witness :
  exists ctx s',
    createAuthorizationContext demoServices delegatedRequest initial
    = (Returned ctx, s')
    /\ ownerId ctx = Some "alice"
    /\ userId ctx = Some "bob".
Proof.
  apply (token_owner_becomes_ownerId demoServices delegatedRequest initial
           {| calls := [CallIsAuthenticated GenericAuthenticator delegatedRequest];
              cells := [] |}
           {| extracted_authToken := Some "tok-alice";
              extracted_sessionData :=
                Some {| SessionData.userId := "bob";
                        SessionData.createdAt := 1700000000 |};
              extracted_isServiceCall := false |}
           "tok-alice"
           {| TokenProject.id := "p1"; TokenProject.userId := Some "alice" |}
           "alice"); reflexivity.
Defined.

Lemma unresolved_token_throws_witness :
  exists message s',
    createAuthorizationContext demoServices orphanTokenRequest initial
    = (Threw (ThrownError message), s')
    /\ createContext demoServices orphanTokenRequest initial
       = (Threw (ThrownError message), s').
Proof.
  apply (unresolved_token_throws demoServices orphanTokenRequest initial "tok-orphan").
  - reflexivity.
  - right. exists {| TokenProject.id := "p2"; TokenProject.userId := None |}.
    split; reflexivity.
Defined.

Lemma isServiceCall_iff_secret_witness :
  exists extracted s',
    extractAuthFromRequest demoServices serviceRequest initial
    = (Returned extracted, s')
    /\ (extracted_isServiceCall extracted = true
        <-> exists value,
              Headers_get (headers serviceRequest) "Authorization" = Some value
              /\ TRPC_SERVER_API_TOKEN (env demoServices) = Some value)
    /\ (TRPC_SERVER_API_TOKEN (env demoServices) = None ->
        extracted_isServiceCall extracted = false).
Proof.
  apply (isServiceCall_iff_secret demoServices serviceRequest initial).
  reflexivity.
Defined.

Lemma builder_capability_compares_project_witness :
  exists ctx s' capability,
    createAuthorizationContext demoServices builderRequest initial
    = (Returned ctx, s')
    /\ isLoggedInToBuilder ctx = Some capability
    /\ capability "p1" s' = (Returned true, s')
    /\ capability "p2" s' = (Returned false, s').
Proof.
  destruct (builder_capability_compares_project demoServices builderRequest initial)
    as [Hreturns Hexact].
  - reflexivity.
  - by eexists.
  - destruct (Hreturns eq_refl eq_refl) as (ctx & s' & Hrun).
    destruct (Hexact ctx s' Hrun) as (capability & Hcapability & Hanswers).
    exists ctx, s', capability. split; [exact Hrun|]. split; [exact Hcapability|].
    split.
    + destruct (Hanswers "p1" s') as ([] & -> & Hiff); [reflexivity|].
      discriminate (proj2 Hiff eq_refl).
    + destruct (Hanswers "p2" s') as ([] & -> & Hiff); [|reflexivity].
      discriminate (proj1 Hiff eq_refl).
Defined.

Lemma no_capability_without_surface_session_witness :
  exists ctx s',
    createAuthorizationContext demoServices anonymousTokenRequest initial
    = (Returned ctx, s')
    /\ isLoggedInToBuilder ctx = None.
Proof.
  destruct (no_capability_without_surface_session demoServices
              anonymousTokenRequest initial)
    as [Hreturns Hnone].
  - reflexivity.
  - intros [_ [session Hsession]]. discriminate Hsession.
  - intros [_ [session Hsession]]. discriminate Hsession.
  - destruct (Hreturns eq_refl) as (ctx & s' & Hrun).
    exists ctx, s'. split; [exact Hrun | exact (Hnone ctx s' Hrun)].
Defined.

Lemma plan_features_follow_nonempty_owner_witness :
  exists ctx s',
    createContext demoServices delegatedRequest initial = (Returned ctx, s')
    /\ ownerId (authorization ctx) = Some "alice"
    /\ userPlanFeatures ctx = Some "plan of alice".
Proof.
  destruct (plan_features_follow_nonempty_owner demoServices delegatedRequest initial)
    as [Hreturns Hplan].
  destruct (Hreturns eq_refl eq_refl) as (ctx & s' & Hrun).
  destruct (Hplan ctx s' Hrun) as (Howner & Hfeatures & _).
  exists ctx, s'. split; [exact Hrun|]. split; [exact Howner|].
  rewrite Hfeatures, Howner. reflexivity.
Defined.

(** The plan features are not always the lookup of the owner. *)
Lemma empty_owner_has_no_plan : ~ planFeaturesFollowOwner demoServices.
Proof.
  intros Hclaim.
  destruct (createContext demoServices emptyUserRequest initial)
    as [[ctx|e] s'] eqn:Hrun.
  - specialize (Hclaim emptyUserRequest initial s' ctx Hrun).
    vm_compute in Hrun. injection Hrun as <- _.
    vm_compute in Hclaim. discriminate Hclaim.
  - vm_compute in Hrun. discriminate Hrun.
Qed.

Lemma canvas_request_throws_witness :
  extractAuthFromRequest demoServices canvasRequest initial
  = (Threw canvasError, initial)
  /\ createAuthorizationContext demoServices canvasRequest initial
     = (Threw canvasError, initial).
Proof.
  apply (canvas_request_throws demoServices canvasRequest initial). reflexivity.
Defined.

Lemma unauthenticated_dashboard_redirects_witness :
  loader demoServices demoLoaderServices anonymousDashboardRequest initial
  = (Threw (ThrownResponse
              (redirect demoLoaderServices
                 (loginPath demoLoaderServices {| returnTo := "/dashboard" |}))),
     logged initial [CallFindAuthenticatedUser anonymousDashboardRequest]).
Proof.
  apply (unauthenticated_dashboard_redirects demoServices demoLoaderServices
           anonymousDashboardRequest initial); reflexivity.
Defined.

Lemma empty_query_token_is_looked_up_witness :
  (exists extracted s1,
     extractAuthFromRequest demoServices emptyTokenRequest initial
     = (Returned extracted, s1)
     /\ extracted_authToken extracted = Some "")
  /\ exists s',
       createAuthorizationContext demoServices emptyTokenRequest initial
       = (Threw (ThrownError "Project owner can't be found for token "), s')
       /\ calls s'
          = [CallIsAuthenticated GenericAuthenticator emptyTokenRequest;
             CallAuthorizationTokenFindUnique ""].
Proof.
  destruct (empty_query_token_is_looked_up demoServices emptyTokenRequest initial)
    as [Hextracted (outcome & s' & Hrun & Hcalls & Hthrows & _)].
  - reflexivity.
  - reflexivity.
  - split; [exact Hextracted|]. exists s'.
    rewrite Hrun, (Hthrows eq_refl). split; [reflexivity | exact Hcalls].
Defined.

(** On the dashboard the filter is read by the first question and kept for
    the second. *)
Example dashboard_filter_is_read_once :
  let run :=
    (authorization <- createAuthorizationContext demoServices
                        (demoRequest "/dashboard" [] [("Cookie", "bob")]) ;;
     match isLoggedInToBuilder authorization with
     | Some capability =>
         first <- capability "p1" ;;
         second <- capability "p2" ;;
         ret (Some (first, second))
     | None => ret None
     end) initial in
  run.1 = Returned (Some (true, false))
  /\ length (calls run.2) = 2%nat
  /\ cells run.2 = [Some ["p1"]].
Proof. by vm_compute. Qed.

(** *** The further facts on the concrete deployment *)

Lemma extracted_token_prefers_query_witness :
  exists extracted s',
    extractAuthFromRequest demoServices twoTokensRequest initial
    = (Returned extracted, s')
    /\ extracted_authToken extracted = Some "tok-alice".
Proof.
  destruct (extracted_token_prefers_query demoServices twoTokensRequest initial
              eq_refl)
    as (extracted & s' & Hrun & Hquery & _).
  exists extracted, s'. split; [exact Hrun | exact (Hquery "tok-alice" eq_refl)].
Defined.

Lemma extraction_asks_one_authenticator_witness :
  exists extracted,
    extractAuthFromRequest demoServices builderRequest initial
    = (Returned extracted,
       logged initial [CallIsAuthenticated BuilderAuthenticator builderRequest])
    /\ extracted_sessionData extracted
       = Some {| SessionData.userId := "bob"; SessionData.createdAt := 1700000000 |}.
Proof.
  exact (extraction_asks_one_authenticator demoServices builderRequest initial
           eq_refl).
Defined.

Lemma authorization_context_returned_iff_witness :
  (exists ctx s',
     createAuthorizationContext demoServices delegatedRequest initial
     = (Returned ctx, s'))
  /\ ~ (exists ctx s',
          createAuthorizationContext demoServices sessionOrphanRequest initial
          = (Returned ctx, s')).
Proof.
  split.
  - apply (proj2 (authorization_context_returned_iff demoServices
                    delegatedRequest initial)).
    split; reflexivity.
  - intros Hreturned.
    apply (proj1 (authorization_context_returned_iff demoServices
                    sessionOrphanRequest initial)) in Hreturned as [_ Hresolves].
    discriminate Hresolves.
Defined.

Lemma unresolved_token_error_message_witness :
  createAuthorizationContext demoServices sessionOrphanRequest initial
  = (Threw (ThrownError "Project p2 has null userId"),
     logged initial
       [CallIsAuthenticated GenericAuthenticator sessionOrphanRequest;
        CallAuthorizationTokenFindUnique "tok-orphan"]).
Proof.
  exact (proj2 (unresolved_token_error_message demoServices sessionOrphanRequest
                  initial "tok-orphan" eq_refl eq_refl)
           {| TokenProject.id := "p2"; TokenProject.userId := None |}
           eq_refl eq_refl).
Defined.

Lemma no_token_owner_is_session_user_witness :
  exists ctx s',
    createAuthorizationContext demoServices sessionRequest initial
    = (Returned ctx, s')
    /\ authToken ctx = None
    /\ ownerId ctx = userId ctx
    /\ userId ctx = Some "bob"
    /\ calls s' = [CallIsAuthenticated GenericAuthenticator sessionRequest].
Proof.
  exact (no_token_owner_is_session_user demoServices sessionRequest initial
           eq_refl eq_refl).
Defined.

Lemma capability_defined_iff_witness :
  exists ctx s',
    createAuthorizationContext demoServices sessionRequest initial
    = (Returned ctx, s')
    /\ is_Some (isLoggedInToBuilder ctx).
Proof.
  destruct (createAuthorizationContext demoServices sessionRequest initial)
    as [[ctx|e] s'] eqn:Hrun.
  - exists ctx, s'. split; [reflexivity|].
    apply (proj2 (capability_defined_iff demoServices sessionRequest initial s'
                    ctx Hrun)).
    vm_compute in Hrun. injection Hrun as <- _.
    split; [by eexists | by left].
  - vm_compute in Hrun. discriminate Hrun.
Defined.

Lemma dashboard_capability_reads_filter_once_witness :
  exists ctx s' capability s'',
    createAuthorizationContext demoServices sessionRequest initial
    = (Returned ctx, s')
    /\ isLoggedInToBuilder ctx = Some capability
    /\ askAll capability ["p1"; "p2"; "p1"] s' = (Returned [true; false; true], s'')
    /\ calls s'' = calls s' ++ [CallReadLoginSessionBloomFilter sessionRequest].
Proof.
  destruct (createAuthorizationContext demoServices sessionRequest initial)
    as [[ctx|e] s'] eqn:Hrun.
  - destruct (dashboard_capability_reads_filter_once demoServices sessionRequest
                initial s' ctx eq_refl eq_refl (ltac:(by eexists)) Hrun)
      as (_ & _ & capability & Hcapability & Hasks).
    destruct (Hasks "p1" ["p2"; "p1"]) as (s'' & Hanswers & Hcalls).
    exists ctx, s', capability, s''.
    split; [reflexivity|]. split; [exact Hcapability|].
    split; [exact Hanswers | exact Hcalls].
  - vm_compute in Hrun. discriminate Hrun.
Defined.

Lemma token_owner_plan_features_witness :
  exists ctx s',
    createContext demoServices delegatedRequest initial = (Returned ctx, s')
    /\ ownerId (authorization ctx) = Some "alice"
    /\ userId (authorization ctx) = Some "bob"
    /\ userPlanFeatures ctx = Some "plan of alice"
    /\ calls s'
       = [CallIsAuthenticated GenericAuthenticator delegatedRequest;
          CallAuthorizationTokenFindUnique "tok-alice";
          CallGetUserPlanFeatures "alice"].
Proof.
  exact (token_owner_plan_features demoServices delegatedRequest initial
           "tok-alice"
           {| TokenProject.id := "p1"; TokenProject.userId := Some "alice" |}
           "alice" eq_refl eq_refl eq_refl eq_refl
           (fun Hempty : "alice" = "" => ltac:(discriminate Hempty))).
Defined.

Lemma setMaxAges_order_independent_witness :
  setMaxAges [("a", 50); ("b", 3); ("a", 10)] createTrpcCache
  = setMaxAges [("b", 3); ("a", 50); ("a", 10)] createTrpcCache.
Proof.
  apply setMaxAges_order_independent. apply perm_swap.
Defined.

Lemma setMaxAges_only_lowers_witness :
  exists age,
    getMaxAge "a" (setMaxAges [("a", 80); ("b", 1); ("a", 10)]
                     (setMaxAge "a" 50 createTrpcCache))
    = Some age
    /\ age = 10
    /\ age <= 50.
Proof.
  exact (setMaxAges_only_lowers [("a", 80); ("b", 1); ("a", 10)]
           (setMaxAge "a" 50 createTrpcCache) "a" 50 eq_refl).
Defined.

Lemma setMaxAges_other_paths_witness :
  getMaxAge "b" (setMaxAges [("a", 50); ("a", 10)] (setMaxAge "b" 7 createTrpcCache))
  = Some 7.
Proof.
  rewrite setMaxAges_other_paths; [reflexivity|].
  intros Hin. repeat (apply elem_of_cons in Hin as [Hin|Hin]; [discriminate Hin|]).
  by apply elem_of_nil in Hin.
Defined.

Lemma fresh_cache_ages_are_capped_witness :
  is_Some (getMaxAge "a" (setMaxAges [("a", 9007199254740992)] createTrpcCache))
  /\ forall age,
       getMaxAge "a" (setMaxAges [("a", 9007199254740992)] createTrpcCache)
       = Some age ->
       age <= Number_MAX_SAFE_INTEGER.
Proof.
  destruct (fresh_cache_ages_are_capped [("a", 9007199254740992)] "a")
    as [Hcapped Hnamed].
  split; [|exact Hcapped].
  apply (proj2 Hnamed). constructor.
Defined.

Lemma getMaxAge_is_minimum_of_safe_values_witness :
  getMaxAge "a" (setMaxAges [("a", 50); ("a", 10); ("a", 80)] createTrpcCache)
  = Some 10.
Proof.
  rewrite getMaxAge_is_minimum_of_safe_values; [reflexivity|].
  repeat (apply Forall_cons; split; [discriminate|]). apply Forall_nil_2.
Defined.

Lemma loader_rejects_other_surfaces_witness :
  loader demoServices demoLoaderServices builderRequest initial
  = (Threw (ThrownResponse
              {| body := None; status := 404; statusText := "Not Found";
                 responseHeaders := ∅ |}),
     initial).
Proof.
  exact (loader_rejects_other_surfaces demoServices demoLoaderServices
           builderRequest initial eq_refl).
Defined.

Lemma loader_failed_check_aborts_witness :
  loader demoServices refusingLoaderServices sessionRequest initial
  = (Threw (ThrownError "Cross-origin request to the dashboard"), initial).
Proof.
  apply (loader_failed_check_aborts demoServices refusingLoaderServices
           sessionRequest initial).
  - reflexivity.
  - left. reflexivity.
Defined.

Lemma loader_returns_dashboard_data_witness :
  exists data s',
    loader demoServices demoLoaderServices sessionRequest initial
    = (Returned data, s')
    /\ data_user data = "bob"
    /\ data_projects data = ["p1"]
    /\ data_projectTemplates data = ["t1"; "t2"]
    /\ data_userPlanFeatures data = "plan of bob"
    /\ data_origin data = "https://apps.example"
    /\ calls s'
       = [CallFindAuthenticatedUser sessionRequest;
          CallIsAuthenticated GenericAuthenticator sessionRequest;
          CallGetUserPlanFeatures "bob";
          CallFindMany "bob";
          CallFindManyByIds ["t1"; "t2"]].
Proof.
  destruct (loader_returns_dashboard_data demoServices demoLoaderServices
              sessionRequest initial "bob" "bob"
              eq_refl eq_refl eq_refl eq_refl eq_refl eq_refl eq_refl
              (fun Hempty : "bob" = "" => ltac:(discriminate Hempty)))
    as (context & data & s1 & s' & _ & Hrun & Huser & Hprojects & Htemplates
        & Hfeatures & Horigin & Hcalls).
  exists data, s'. split; [exact Hrun|]. split; [exact Huser|].
  split; [exact Hprojects|]. split; [exact Htemplates|].
  split; [exact Hfeatures|]. split; [exact Horigin | exact Hcalls].
Defined.

Lemma loader_without_plan_throws_after_fetch_witness :
  exists s',
    loader demoServices demoLoaderServices emptyUserRequest initial
    = (Threw (ThrownError "User plan features are not defined"), s')
    /\ calls s'
       = [CallFindAuthenticatedUser emptyUserRequest;
          CallIsAuthenticated GenericAuthenticator emptyUserRequest;
          CallFindMany "";
          CallFindManyByIds ["t1"; "t2"]].
Proof.
  apply (loader_without_plan_throws_after_fetch demoServices demoLoaderServices
           emptyUserRequest initial ""); try reflexivity.
  right. reflexivity.
Defined.

Lemma loader_propagates_authorization_error_witness :
  loader demoServices demoLoaderServices sessionOrphanRequest initial
  = (Threw (ThrownError "Project p2 has null userId"),
     {| calls := [CallFindAuthenticatedUser sessionOrphanRequest;
                  CallIsAuthenticated GenericAuthenticator sessionOrphanRequest;
                  CallAuthorizationTokenFindUnique "tok-orphan"];
        cells := [] |}).
Proof.
  apply (loader_propagates_authorization_error demoServices demoLoaderServices
           sessionOrphanRequest initial _ "bob"); reflexivity.
Defined.

Lemma loader_returns_only_if_witness :
  exists data s',
    loader demoServices demoLoaderServices sessionRequest initial
    = (Returned data, s')
    /\ findAuthenticatedUser demoLoaderServices sessionRequest
       = Some (data_user data)
    /\ exists owner,
         resolvedOwner demoServices sessionRequest = Some owner
         /\ owner <> ""
         /\ data_userPlanFeatures data = getUserPlanFeatures demoServices owner.
Proof.
  destruct (loader demoServices demoLoaderServices sessionRequest initial)
    as [[data|e] s'] eqn:Hrun.
  - destruct (loader_returns_only_if demoServices demoLoaderServices
                sessionRequest initial s' data Hrun)
      as (_ & _ & _ & Huser & _ & _ & Howner).
    exists data, s'. split; [reflexivity|]. split; [exact Huser | exact Howner].
  - vm_compute in Hrun. discriminate Hrun.
Defined.

Lemma DashboardRoute_hints_first_five_witness :
  length (filter (fun hint => isPrefetchDNS hint = true)
            (DashboardRoute demoClientServices demoData)) = 5%nat
  /\ length (filter (fun hint => isPrefetchDNS hint = false)
               (DashboardRoute demoClientServices demoData)) = 5%nat
  /\ DashboardRoute demoClientServices demoData !! 4%nat
     = Some (PrefetchDNS "https://apps.example/builder/p5")
  /\ DashboardRoute demoClientServices demoData !! 9%nat
     = Some (Preconnect "https://apps.example/builder/p5").
Proof.
  destruct (DashboardRoute_hints_first_five demoClientServices demoData)
    as (Hprefetch & Hpreconnect & _ & _ & Heach).
  split; [exact Hprefetch|]. split; [exact Hpreconnect|].
  exact (Heach 4%nat "p5" (ltac:(lia)) eq_refl).
Defined.


